(** * Insurance chat: the message-processing pipeline

    A shallow embedding of the TypeScript sources

    - [app/lib/modules/insurance/utils/knowledge-base.ts]
    - [app/lib/modules/insurance/services/response-generator.ts]
    - [app/lib/modules/insurance/services/insurance-service.ts]
    - [app/lib/hooks/useInsuranceChat.ts]

    and the properties of the pipeline: categorize, extract context,
    generate or enhance the response, derive follow-ups, keep the
    transcript.

    Conventions of the embedding.
    - A promise, or a block that may throw, is a [Result]: [Ok] for a
      value, [Throw] for an exception or a rejection; [try]/[catch] is
      [try_catch].
    - React state and refs are one record, passed explicitly; an
      asynchronous turn is split at its first [await].
    - The language-model provider ([LLMManager] and the models it
      hands out) is a parameter: any behaviour, failures included.
    - Logging, the [onError] callback, time stamps and the write-back
      to local storage have no effect on what is modelled and are left
      out. *)

From Stdlib Require Import Strings.String Strings.Ascii List Bool Arith NArith Lia.
From Stdlib Require Import Floats ZArith.
Import ListNotations.

Set Warnings "-inexact-float".

Open Scope list_scope.
Open Scope string_scope.

(* ================================================================== *)
(** * The JavaScript runtime, as far as the sources use it *)
(* ================================================================== *)

Module JS.

(** ** Strings

    A string is a sequence of 8-bit code units read as Latin-1 code
    points (U+0000..U+00FF); on that range the definitions below agree
    with ECMAScript.  Code points above U+00FF are outside the model. *)

Definition code (c : ascii) : N := N_of_ascii c.

(** The double quote and the line feed. *)
Definition dquote : ascii := ascii_of_N 34.
Definition nl : string := String (ascii_of_N 10) EmptyString.

Definition between (lo hi : N) (c : ascii) : bool :=
  ((lo <=? code c) && (code c <=? hi))%N.

(** [String.prototype.toLowerCase] on one code unit: A-Z, and the
    Latin-1 capitals U+00C0..U+00DE except the multiplication sign. *)
Definition lower_char (c : ascii) : ascii :=
  if between 65 90 c || between 192 214 c || between 216 222 c
  then ascii_of_N (code c + 32)
  else c.

Fixpoint toLowerCase (s : string) : string :=
  match s with
  | EmptyString => EmptyString
  | String c s' => String (lower_char c) (toLowerCase s')
  end.

(** [s.includes(sub)]: [sub] occurs in [s] as a contiguous substring. *)
Fixpoint includes (s sub : string) : bool :=
  String.prefix sub s ||
  match s with
  | EmptyString => false
  | String _ s' => includes s' sub
  end.

(** [xs.includes(x)] on an array of strings. *)
Definition arr_includes (xs : list string) (x : string) : bool :=
  existsb (String.eqb x) xs.

(** [[...new Set(xs)]]: first occurrences, in order. *)
Fixpoint unique (xs : list string) : list string :=
  match xs with
  | [] => []
  | x :: xs' => x :: filter (fun y => negb (String.eqb x y)) (unique xs')
  end.

(** [xs.slice(0, n)] *)
Definition slice0 {A} (n : nat) (xs : list A) : list A := firstn n xs.

(** [xs.slice(-n)] *)
Definition slice_last {A} (n : nat) (xs : list A) : list A :=
  skipn (List.length xs - n) xs.

(** [xs.join(sep)] *)
Fixpoint join (sep : string) (xs : list string) : string :=
  match xs with
  | [] => ""
  | [x] => x
  | x :: xs' => x ++ sep ++ join sep xs'
  end.

(** ** Numbers as far as they are integral

    Amounts and ages are non-negative integers here; [None] stands for
    [NaN].  (Doubles are exact on integers below 2^53.) *)

Definition is_digit (c : ascii) : bool := between 48 57 c.

Definition digit_val (c : ascii) : N := (code c - 48)%N.

Fixpoint digits_acc (s : string) (seen : bool) (acc : N) : option N :=
  match s with
  | String c s' =>
      if is_digit c then digits_acc s' true (acc * 10 + digit_val c)%N
      else if seen then Some acc else None
  | EmptyString => if seen then Some acc else None
  end.

(** [parseFloat(s)] and [parseInt(s, 10)] on a string that starts with
    decimal digits (the only strings the sources pass them): the value
    of the leading digits, [NaN] when there is none. *)
Definition parseFloat (s : string) : option N := digits_acc s false 0%N.
Definition parseInt10 (s : string) : option N := digits_acc s false 0%N.

Definition digit_char (d : N) : ascii := ascii_of_N (48 + d).

Fixpoint to_digits (fuel : nat) (n : N) (acc : string) : string :=
  match fuel with
  | O => acc
  | S f =>
      let acc' := String (digit_char (n mod 10)) acc in
      if (n <? 10)%N then acc' else to_digits f (n / 10)%N acc'
  end.

(** [String(n)] for a non-negative integer. *)
Definition string_of_N (n : N) : string :=
  to_digits (S (N.to_nat (N.log2 n))) n "".

(** Thousands separators, from the right. *)
Fixpoint group3_rev (s : list ascii) (k : nat) : list ascii :=
  match s with
  | [] => []
  | c :: s' =>
      match k with
      | O => ","%char :: c :: group3_rev s' 2
      | S k' => c :: group3_rev s' k'
      end
  end.

Definition group3 (s : string) : string :=
  string_of_list_ascii
    (rev (group3_rev (rev (list_ascii_of_string s)) 3)).

(** [n.toLocaleString()] in the en-US locale. *)
Definition toLocaleString (n : N) : string := group3 (string_of_N n).

(** [new Intl.NumberFormat('en-US', {style: 'currency', currency: 'USD',
    maximumFractionDigits: 0}).format(n)] (ES2023 resolution of the
    fraction digits). *)
Definition formatUSD (n : N) : string := "$" ++ group3 (string_of_N n).

(** ** Regular expressions: a backtracking matcher

    ECMAScript semantics: alternatives in order, greedy quantifiers,
    the leftmost match. *)

Inductive regex : Type :=
| Eps
| Chr (c : ascii)
| Cls (p : ascii -> bool)
| Cat (r1 r2 : regex)
| Alt (r1 r2 : regex)
| Star (r : regex)
| Grp (i : nat) (r : regex)
| WordB.

Definition Plus (r : regex) : regex := Cat r (Star r).
Definition Opt (r : regex) : regex := Alt r Eps.

(** [r1 r2 ... rn] and [r1|r2|...|rn] *)
Definition seq (rs : list regex) : regex := fold_right Cat Eps rs.
Definition alts (rs : list regex) : regex :=
  fold_right Alt (Cls (fun _ => false)) rs.

Fixpoint Str (s : string) : regex :=
  match s with
  | EmptyString => Eps
  | String c s' => Cat (Chr c) (Str s')
  end.

(** [\d], [\w], [\s] *)
Definition cls_d : ascii -> bool := is_digit.
Definition cls_w (c : ascii) : bool :=
  between 48 57 c || between 65 90 c || between 97 122 c || (code c =? 95)%N.
Definition cls_s (c : ascii) : bool :=
  between 9 13 c || (code c =? 32)%N || (code c =? 160)%N.

(** A position in the input: the code unit before it, what is left, the
    offset, and the captures so far. *)
Record mstate : Type := MState {
  ms_prev : option ascii;
  ms_rest : string;
  ms_pos : nat;
  ms_caps : list (nat * string)
}.

Definition is_word (c : option ascii) : bool :=
  match c with Some a => cls_w a | None => false end.

Definition ms_next (st : mstate) : option ascii :=
  match ms_rest st with String a _ => Some a | EmptyString => None end.

Definition step_char (p : ascii -> bool) (st : mstate) : option mstate :=
  match ms_rest st with
  | String a s' =>
      if p a then Some (MState (Some a) s' (S (ms_pos st)) (ms_caps st))
      else None
  | EmptyString => None
  end.

Definition set_cap (i : nat) (from to : mstate) : mstate :=
  MState (ms_prev to) (ms_rest to) (ms_pos to)
         ((i, String.substring 0 (ms_pos to - ms_pos from) (ms_rest from))
            :: ms_caps to).

Fixpoint run (r : regex) (st : mstate) (k : mstate -> option mstate)
  : option mstate :=
  match r with
  | Eps => k st
  | Chr c => match step_char (Ascii.eqb c) st with
             | Some st' => k st'
             | None => None
             end
  | Cls p => match step_char p st with
             | Some st' => k st'
             | None => None
             end
  | Cat r1 r2 => run r1 st (fun st1 => run r2 st1 k)
  | Alt r1 r2 => match run r1 st k with
                 | Some res => Some res
                 | None => run r2 st k
                 end
  | Star r1 =>
      (fix loop (fuel : nat) (st0 : mstate) : option mstate :=
         match fuel with
         | O => k st0
         | S fuel' =>
             match run r1 st0
                     (fun st1 => if Nat.eqb (ms_pos st1) (ms_pos st0) then None
                                 else loop fuel' st1) with
             | Some res => Some res
             | None => k st0
             end
         end) (String.length (ms_rest st)) st
  | Grp i r1 => run r1 st (fun st1 => k (set_cap i st st1))
  | WordB => if xorb (is_word (ms_prev st)) (is_word (ms_next st))
             then k st else None
  end.

(** The result of [RegExp.prototype.exec]. *)
Record rmatch : Type := RMatch {
  m_index : nat;
  m_end : nat;
  m_caps : list (nat * string)
}.

Fixpoint lookup_cap (i : nat) (caps : list (nat * string)) : option string :=
  match caps with
  | [] => None
  | (j, s) :: caps' => if Nat.eqb i j then Some s else lookup_cap i caps'
  end.

(** [m[i]] for [i >= 1]; [None] is [undefined]. *)
Definition group (m : rmatch) (i : nat) : option string :=
  lookup_cap i (m_caps m).

Definition match_at (r : regex) (prev : option ascii) (rest : string)
  (pos : nat) : option rmatch :=
  match run r (MState prev rest pos []) Some with
  | Some st => Some (RMatch pos (ms_pos st) (ms_caps st))
  | None => None
  end.

(** The leftmost match at or after the current position. *)
Fixpoint search_from (r : regex) (prev : option ascii) (rest : string)
  (pos : nat) : option rmatch :=
  match match_at r prev rest pos with
  | Some m => Some m
  | None =>
      match rest with
      | String a rest' => search_from r (Some a) rest' (S pos)
      | EmptyString => None
      end
  end.

(** [s.match(r)] for a regex without the [g] flag. *)
Definition exec (r : regex) (s : string) : option rmatch :=
  search_from r None s 0.

(** ** [String.prototype.replace] with a global regex

    The replacement text is a template: [$$], [$&], [$`], [$'] and the
    group references [$n], [$nn] are expanded (GetSubstitution). *)

Fixpoint ngroups (r : regex) : nat :=
  match r with
  | Cat r1 r2 | Alt r1 r2 => ngroups r1 + ngroups r2
  | Star r1 => ngroups r1
  | Grp _ r1 => S (ngroups r1)
  | _ => 0
  end.

Definition drop (n : nat) (s : string) : string :=
  String.substring n (String.length s - n) s.

Section Substitution.
Variable m : nat.                      (* number of capture groups *)
Variable caps : list (nat * string).
Variables matched before after : string.

Definition cap_text (i : nat) : string :=
  match lookup_cap i caps with Some s => s | None => "" end.

Definition digit_nat (c : ascii) : nat := N.to_nat (digit_val c).

Definition valid_ref (i : nat) : bool := (1 <=? i)%nat && (i <=? m)%nat.

Fixpoint expand (tpl : string) : string :=
  match tpl with
  | EmptyString => EmptyString
  | String c t =>
      if negb (Ascii.eqb c "$"%char) then String c (expand t)
      else
        match t with
        | EmptyString => "$"
        | String d1 t1 =>
            if Ascii.eqb d1 "$"%char then "$" ++ expand t1
            else if Ascii.eqb d1 "&"%char then matched ++ expand t1
            else if Ascii.eqb d1 "`"%char then before ++ expand t1
            else if Ascii.eqb d1 "'"%char then after ++ expand t1
            else if is_digit d1 then
              let one :=
                if valid_ref (digit_nat d1)
                then cap_text (digit_nat d1) ++ expand t1
                else String c (String d1 (expand t1)) in
              match t1 with
              | String d2 t2 =>
                  if is_digit d2 then
                    let nn := (10 * digit_nat d1 + digit_nat d2)%nat in
                    if (m <? nn)%nat then one
                    else if valid_ref nn then cap_text nn ++ expand t2
                    else String c (String d1 (String d2 (expand t2)))
                  else one
              | EmptyString => one
              end
            else String c (expand t)
        end
  end.
End Substitution.

Definition substitution (r : regex) (input : string) (mt : rmatch)
  (tpl : string) : string :=
  expand (ngroups r) (m_caps mt)
    (String.substring (m_index mt) (m_end mt - m_index mt) input)
    (String.substring 0 (m_index mt) input)
    (drop (m_end mt) input)
    tpl.

Definition char_before (n : nat) (s : string) : option ascii :=
  match n with O => None | S n' => String.get n' s end.

Fixpoint replace_from (fuel : nat) (r : regex) (tpl input : string)
  (prev : option ascii) (rest : string) (pos : nat) : string :=
  match fuel with
  | O => rest
  | S fuel' =>
      match search_from r prev rest pos with
      | None => rest
      | Some mt =>
          let skipped := String.substring 0 (m_index mt - pos) rest in
          let out := skipped ++ substitution r input mt tpl in
          if Nat.eqb (m_end mt) (m_index mt) then
            match drop (m_index mt - pos) rest with
            | String a rest' =>
                out ++ String a
                  (replace_from fuel' r tpl input (Some a) rest'
                     (S (m_index mt)))
            | EmptyString => out
            end
          else
            out ++ replace_from fuel' r tpl input
                     (char_before (m_end mt) input)
                     (drop (m_end mt - pos) rest) (m_end mt)
      end
  end.

(** [s.replace(/r/g, tpl)] *)
Definition replace_all (r : regex) (tpl : string) (s : string) : string :=
  replace_from (S (String.length s)) r tpl s None s 0.

(** ** Exceptions and promises *)

Inductive Error : Type :=
| TypeError (message : string)
| OtherError (message : string).

Definition error_message (e : Error) : string :=
  match e with TypeError msg | OtherError msg => msg end.

(** The outcome of a [try] body or of an awaited promise. *)
Inductive Result (A : Type) : Type :=
| Ok (a : A)
| Throw (e : Error).
Arguments Ok {A} a.
Arguments Throw {A} e.

Definition bind {A B} (x : Result A) (f : A -> Result B) : Result B :=
  match x with
  | Ok a => f a
  | Throw e => Throw e
  end.

(** [try { body } catch (e) { handler(e) }] *)
Definition try_catch {A} (body : Result A) (handler : Error -> Result A)
  : Result A :=
  match body with
  | Ok a => Ok a
  | Throw e => handler e
  end.

(** Looking a method up on an object: a missing property is [undefined],
    and calling it throws a [TypeError]. *)
Inductive method (F : Type) : Type :=
| Missing
| Defined_as (f : F).
Arguments Missing {F}.
Arguments Defined_as {F} f.

End JS.

Import JS.
Notation "x <- c1 ;; c2" := (bind c1 (fun x => c2))
  (at level 61, c1 at next level, right associativity).


(* ================================================================== *)
(** * types.ts *)
(* ================================================================== *)

Inductive QuestionCategory : Type := basic | health | policy | claims.

(** The string a category is at run time. *)
Definition category_string (c : QuestionCategory) : string :=
  match c with
  | basic => "basic"
  | health => "health"
  | policy => "policy"
  | claims => "claims"
  end.

Record KnowledgeBaseEntry : Type := {
  term : string;
  definition : string;
  category : QuestionCategory;
  relatedTerms : option (list string)
}.

(* ================================================================== *)
(** * utils/knowledge-base.ts *)
(* ================================================================== *)

(** [x || []] *)
Definition or_empty (x : option (list string)) : list string :=
  match x with Some l => l | None => [] end.

(** Case-insensitive equality, [a.toLowerCase() === b.toLowerCase()]. *)
Definition eq_ci (a b : string) : bool :=
  String.eqb (toLowerCase a) (toLowerCase b).

(** [a.toLowerCase().includes(b.toLowerCase())] *)
Definition includes_ci (a b : string) : bool :=
  includes (toLowerCase a) (toLowerCase b).

Module KnowledgeBase.

(** The private [entries] field, generic in the methods below. *)
Record t : Type := { entries : list KnowledgeBaseEntry }.

(** [initializeKnowledgeBase] *)
Definition initial_entries : list KnowledgeBaseEntry :=
  [ {| term := "term life insurance";
       definition := "Insurance that provides coverage for a specific period (term), typically 10, 20, or 30 years, with level premiums and no cash value component.";
       category := basic;
       relatedTerms := Some ["whole life insurance"; "premium"; "death benefit"] |};
    {| term := "whole life insurance";
       definition := "Permanent life insurance that provides coverage for your entire life, includes a cash value component, and typically has fixed premiums.";
       category := basic;
       relatedTerms := Some ["term life insurance"; "cash value"; "permanent insurance"] |};
    {| term := "universal life insurance";
       definition := "A type of permanent life insurance with flexible premiums and death benefits, where the cash value earns interest based on current market rates.";
       category := basic;
       relatedTerms := Some ["variable life insurance"; "whole life insurance"; "cash value"] |};
    {| term := "medical underwriting";
       definition := "The process insurers use to evaluate your health status, medical history, and other factors to determine risk and set premium rates.";
       category := health;
       relatedTerms := Some ["medical exam"; "no-exam insurance"; "risk classification"] |};
    {| term := "pre-existing condition";
       definition := "A health condition that existed before applying for insurance, which may affect eligibility, premium rates, or coverage limitations.";
       category := health;
       relatedTerms := Some ["exclusions"; "medical underwriting"; "guaranteed issue"] |};
    {| term := "premium";
       definition := "The amount paid to the insurance company to maintain coverage, which can be paid monthly, quarterly, semi-annually, or annually.";
       category := policy;
       relatedTerms := Some ["policy fee"; "rate class"; "payment mode"] |};
    {| term := "death benefit";
       definition := "The amount of money paid to beneficiaries upon the insured person's death, which is generally income tax-free.";
       category := policy;
       relatedTerms := Some ["beneficiary"; "face value"; "payout"] |};
    {| term := "claim process";
       definition := "The procedure beneficiaries follow to receive the death benefit, which typically involves submitting a death certificate and claim form.";
       category := claims;
       relatedTerms := Some ["beneficiary"; "death benefit"; "contestability period"] |} ].

(** [new KnowledgeBase()] *)
Definition new : t := {| entries := initial_entries |}.

Definition is_exact (topic : string) (entry : KnowledgeBaseEntry) : bool :=
  String.eqb (toLowerCase (term entry)) (toLowerCase topic).

Definition is_partial (topic : string) (entry : KnowledgeBaseEntry) : bool :=
  includes (toLowerCase topic) (toLowerCase (term entry)) ||
  includes (toLowerCase (term entry)) (toLowerCase topic).

Definition no_information (topic : string) : string :=
  "I don't have specific information about " ++ String dquote topic
  ++ String dquote " in my knowledge base. Would you like to know about term life insurance, whole life insurance, or another insurance topic?".

Definition findRelevantInformation (kb : t) (topic : string) : string :=
  match find (is_exact topic) (entries kb) with
  | Some exactMatch => definition exactMatch
  | None =>
      match filter (is_partial topic) (entries kb) with
      | first :: _ => definition first
      | [] => no_information topic
      end
  end.

Definition mentioned_in (context : string) (entry : KnowledgeBaseEntry) : bool :=
  includes (toLowerCase context) (toLowerCase (term entry)).

Definition getSuggestedQuestions (kb : t) (context : string) : list string :=
  match filter (mentioned_in context) (entries kb) with
  | first :: _ =>
      slice0 3
        (map (fun tm =>
                match find (fun e => String.eqb (toLowerCase (term e)) (toLowerCase tm))
                           (entries kb) with
                | Some _ => "What is " ++ tm ++ "?"
                | None => "Can you tell me about " ++ tm ++ "?"
                end)
             (or_empty (relatedTerms first)))
  | [] =>
      [ "What's the difference between term and whole life insurance?";
        "How much coverage do I need?";
        "How do I file a claim?" ]
  end.

Definition getRelatedTopics (kb : t) (context : string) : list string :=
  match filter (mentioned_in context) (entries kb) with
  | first :: _ => slice0 3 (or_empty (relatedTerms first))
  | [] => []
  end.

Definition search (kb : t) (query : string) : list KnowledgeBaseEntry :=
  filter (fun entry =>
            includes (toLowerCase (term entry)) (toLowerCase query) ||
            includes (toLowerCase (definition entry)) (toLowerCase query) ||
            existsb (fun tm => includes (toLowerCase tm) (toLowerCase query))
                    (or_empty (relatedTerms entry)))
         (entries kb).

(** The class has no [getAllTerms] member, although
    [ResponseGenerator.extractTermsFromMessages] calls one. *)
Definition getAllTerms : method (t -> list string) := Missing.

End KnowledgeBase.

Record InsuranceDefinition : Type := {
  idef_term : string;
  idef_definition : string;
  idef_category : string
}.

Record PolicyType : Type := {
  name : string;
  description : string;
  features : list string;
  bestFor : list string
}.

Definition insuranceTerms : list InsuranceDefinition :=
  [ {| idef_term := "Premium";
       idef_definition := "The amount paid regularly to maintain insurance coverage";
       idef_category := "basics" |};
    {| idef_term := "Death Benefit";
       idef_definition := "The amount paid to beneficiaries upon the insured person's death";
       idef_category := "benefits" |};
    {| idef_term := "Beneficiary";
       idef_definition := "The person or entity designated to receive the insurance payout";
       idef_category := "basics" |};
    {| idef_term := "Underwriting";
       idef_definition := "The process of evaluating risk to determine premium rates";
       idef_category := "process" |};
    {| idef_term := "Cash Value";
       idef_definition := "The savings component of permanent life insurance policies";
       idef_category := "features" |} ].

Definition policyTypes : list PolicyType :=
  [ {| name := "Term Life Insurance";
       description := "Coverage for a specific period, typically 10-30 years";
       features := [ "Lower premiums"; "Fixed death benefit";
                     "No cash value component";
                     "Convertible to permanent insurance" ];
       bestFor := [ "Temporary coverage needs"; "Budget-conscious individuals";
                    "Young families"; "Mortgage protection" ] |};
    {| name := "Whole Life Insurance";
       description := "Permanent coverage that lasts your entire life";
       features := [ "Guaranteed death benefit"; "Builds cash value";
                     "Fixed premiums"; "Dividend potential" ];
       bestFor := [ "Lifetime coverage needs"; "Estate planning";
                    "Business succession"; "Long-term savings goals" ] |} ].

Module commonQuestions.
Definition coverage : list string :=
  [ "How much coverage do I need?";
    "What factors determine my coverage amount?";
    "Can I change my coverage amount later?" ].
Definition healthRelated : list string :=
  [ "Do I need a medical exam?";
    "How do pre-existing conditions affect my policy?";
    "What health factors impact my premium?" ].
Definition claims : list string :=
  [ "How do I file a claim?";
    "What documents are needed for a claim?";
    "How long does claim processing take?" ].
End commonQuestions.

Definition findPolicyType (nm : string) : option PolicyType :=
  find (fun p => String.eqb (toLowerCase (name p)) (toLowerCase nm)) policyTypes.

Definition findTerm (searchTerm : string) : option InsuranceDefinition :=
  find (fun d => String.eqb (toLowerCase (idef_term d)) (toLowerCase searchTerm))
       insuranceTerms.


(* ================================================================== *)
(** * services/response-generator.ts *)
(* ================================================================== *)

(** The context bag ([Record<string, any>]) that the extractor builds
    and the generator reads as [userData]; the fields are in the
    insertion order of the extractor. *)
Record Context : Type := {
  ctx_category : option QuestionCategory;
  policyType : option string;
  coverageAmount : option N;
  age : option N;
  healthStatus : option string
}.

Record ResponseContext : Type := {
  userQuery : string;
  previousMessages : option (list string);
  userData : option Context
}.

Record FormattedResponse : Type := {
  message : string;
  suggestions : option (list string);
  relatedTopics : option (list string);
  confidence : float
}.

(** Truthiness of an optional string and of an optional number. *)
Definition truthy_string (x : option string) : option string :=
  match x with
  | Some s => if String.eqb s "" then None else Some s
  | None => None
  end.

Definition truthy_number (x : option N) : option N :=
  match x with
  | Some n => if (n =? 0)%N then None else Some n
  | None => None
  end.

(** [Math.min] on two numbers, neither of them [NaN]. *)
Definition Math_min (a b : float) : float :=
  if PrimFloat.ltb b a then b else a.

Definition float_of_nat (n : nat) : float :=
  PrimFloat.of_uint63 (Uint63.of_nat n).

Module ResponseGenerator.
Section WithKnowledgeBase.

(** The constructor argument. *)
Variable knowledgeBase : KnowledgeBase.t.

Definition analyzeIntent (query : string) : string :=
  let lowerQuery := toLowerCase query in
  if includes lowerQuery "term life" || includes lowerQuery "whole life" ||
     includes lowerQuery "universal life" || includes lowerQuery "variable life"
  then "policy_explanation"
  else if includes lowerQuery "premium" || includes lowerQuery "cash value" ||
          includes lowerQuery "beneficiary" || includes lowerQuery "underwriting"
  then "term_definition"
  else if includes lowerQuery "how much" || includes lowerQuery "coverage" ||
          includes lowerQuery "amount"
  then "coverage_question"
  else if includes lowerQuery "health" || includes lowerQuery "medical" ||
          includes lowerQuery "exam" || includes lowerQuery "pre-existing"
  then "health_question"
  else if includes lowerQuery "claim" || includes lowerQuery "file" ||
          includes lowerQuery "process"
  then "claims_question"
  else "general_insurance_query".

(** [Object.entries(userData)], each value under [String(value)]. *)
Definition entry {A} (key : string) (show : A -> string) (v : option A)
  : list (string * string) :=
  match v with Some a => [(key, show a)] | None => [] end.

Definition object_entries (userData : Context) : list (string * string) :=
  (entry "category" category_string (ctx_category userData)
   ++ entry "policyType" id (policyType userData)
   ++ entry "coverageAmount" string_of_N (coverageAmount userData)
   ++ entry "age" string_of_N (age userData)
   ++ entry "healthStatus" id (healthStatus userData))%list.

(** [new RegExp(`\\{\\{${key}\\}\\}`, 'g')] *)
Definition placeholder (key : string) : regex := Str ("{{" ++ key ++ "}}").

(** [/\b(your coverage|your policy)\b/g] *)
Definition your_coverage_re : regex :=
  seq [WordB; Grp 1 (alts [Str "your coverage"; Str "your policy"]); WordB].

(** "Apply user data if available" *)
Definition applyUserData (response : string) (userData : option Context)
  : string :=
  match userData with
  | Some ud =>
      fold_left (fun resp kv => replace_all (placeholder (fst kv)) (snd kv) resp)
                (object_entries ud) response
  | None => response
  end.

(** "Personalize based on coverage amount if available" *)
Definition applyCoverageAmount (response : string) (userData : option Context)
  : string :=
  match truthy_number (match userData with
                       | Some ud => coverageAmount ud
                       | None => None
                       end) with
  | Some amount =>
      let formattedAmount := formatUSD amount in
      let response :=
        replace_all (placeholder "coverageAmount") formattedAmount response in
      if includes response "coverage" || includes response "policy"
      then replace_all your_coverage_re
             ("your " ++ formattedAmount ++ " coverage") response
      else response
  | None => response
  end.

Definition enhanceWithPolicyDetails (response : string) (policyInfo : PolicyType)
  : string :=
  if negb (includes response (description policyInfo)) then
    let response :=
      if includes response "features" &&
         negb (includes response (join "," (features policyInfo)))
      then replace_all (placeholder "features")
             (join ", " (features policyInfo)) response
      else response in
    if includes response "best for" &&
       negb (includes response (join "," (bestFor policyInfo)))
    then replace_all (placeholder "bestFor")
           (join ", " (bestFor policyInfo)) response
    else response
  else response.

(** "Personalize based on policy type if available" *)
Definition applyPolicyType (response : string) (userData : option Context)
  : string :=
  match truthy_string (match userData with
                       | Some ud => policyType ud
                       | None => None
                       end) with
  | Some pt =>
      match findPolicyType pt with
      | Some policyInfo => enhanceWithPolicyDetails response policyInfo
      | None => response
      end
  | None => response
  end.

Definition extractTermsFromMessages (messages : list string)
  : Result (list string) :=
  match KnowledgeBase.getAllTerms with
  | Missing =>
      Throw (TypeError "this.knowledgeBase.getAllTerms is not a function")
  | Defined_as getAllTerms =>
      let allTerms := getAllTerms knowledgeBase in
      Ok (unique
            (flat_map (fun message =>
                         filter (fun tm => includes_ci message tm) allTerms)
                      messages))
  end.

Definition enrichResponseWithTerms (response : string) (terms : list string)
  : string :=
  match terms with
  | [] => response
  | tm :: _ =>
      match findTerm tm with
      | Some termInfo =>
          if negb (includes_ci response (idef_term termInfo))
          then "Regarding " ++ idef_term termInfo ++ ", " ++ response
          else response
      | None => response
      end
  end.

Definition back_references : list string :=
  ["this"; "that"; "it"; "these"; "those"].

Definition referencesTerms (lastTwoMessages : list string) : bool :=
  existsb (fun msg =>
             existsb (fun ref => includes (toLowerCase msg) ref)
                     back_references)
          lastTwoMessages.

(** "Consider conversation history for context continuity" *)
Definition applyHistory (response : string)
  (previousMessages : option (list string)) : Result string :=
  match previousMessages with
  | Some msgs =>
      if Nat.eqb (List.length msgs) 0 then Ok response
      else
        let lastTwoMessages := slice_last 2 msgs in
        if referencesTerms lastTwoMessages then
          potentialTerms <- extractTermsFromMessages lastTwoMessages ;;
          if Nat.ltb 0 (List.length potentialTerms)
          then Ok (enrichResponseWithTerms response potentialTerms)
          else Ok response
        else Ok response
  | None => Ok response
  end.

Definition applyContext (baseResponse : string)
  (previousMessages : option (list string)) (userData : option Context)
  : Result string :=
  let response := applyUserData baseResponse userData in
  let response := applyCoverageAmount response userData in
  let response := applyPolicyType response userData in
  applyHistory response previousMessages.

Definition getSuggestionsByCategory (category : QuestionCategory)
  : list string :=
  match category with
  | basic => commonQuestions.coverage
  | health => commonQuestions.healthRelated
  | policy =>
      [ "What's the difference between term and whole life insurance?";
        "Can I modify my policy after purchase?";
        "How does cash value work in a whole life policy?" ]
  | claims => commonQuestions.claims
  end.

Definition detailMarkers : list string :=
  ["feature"; "benefit"; "cover"; "policy"; "premium"; "underwriting"].

Definition detailCount (response : string) : nat :=
  List.length (filter (fun marker => includes response marker) detailMarkers).

Definition calculateConfidence (response : string) : float :=
  if includes response "I don't have specific information" then 0.5%float
  else if includes response "I apologize" ||
          includes response "I'm having trouble" then 0.3%float
  else Math_min (0.7 + float_of_nat (detailCount response) * 0.05) 0.95.

Definition formatResponse (response : string)
  (category : option QuestionCategory) : FormattedResponse :=
  let suggestions := KnowledgeBase.getSuggestedQuestions knowledgeBase response in
  let suggestions :=
    match category with
    | Some c =>
        let mergedSuggestions :=
          fold_left (fun merged suggestion =>
                       if arr_includes merged suggestion then merged
                       else (merged ++ [suggestion])%list)
                    (getSuggestionsByCategory c) suggestions in
        slice0 3 mergedSuggestions
    | None => suggestions
    end in
  {| message := response;
     suggestions := Some suggestions;
     relatedTopics := Some (KnowledgeBase.getRelatedTopics knowledgeBase response);
     confidence := calculateConfidence response |}.

Definition generateErrorResponse (error : Error) : FormattedResponse :=
  {| message :=
       "I apologize, but I'm having trouble processing your request. " ++
       "Please try rephrasing your question or contact our support team for assistance.";
     suggestions :=
       Some [ "Can you explain your insurance needs?";
              "What type of coverage are you looking for?";
              "Would you like to speak with an insurance agent?" ];
     relatedTopics := None;
     confidence := 1 |}.

(** The body of the [try] block of [generateResponse]. *)
Definition generateResponse_try (context : ResponseContext)
  : Result FormattedResponse :=
  let intent := analyzeIntent (userQuery context) in
  let relevantInfo :=
    KnowledgeBase.findRelevantInformation knowledgeBase intent in
  contextualizedResponse <-
    applyContext relevantInfo (previousMessages context) (userData context) ;;
  Ok (formatResponse contextualizedResponse
        (match userData context with
         | Some ud => ctx_category ud
         | None => None
         end)).

Definition generateResponse (context : ResponseContext)
  : Result FormattedResponse :=
  try_catch (generateResponse_try context)
            (fun error => Ok (generateErrorResponse error)).

End WithKnowledgeBase.
End ResponseGenerator.


(* ================================================================== *)
(** * The language-model provider ([LLMManager], outside the sources) *)
(* ================================================================== *)

Record CompletionRequest : Type := {
  prompt : string;
  req_temperature : float;
  req_maxTokens : nat
}.

(** [model.complete(request)] resolves to the text of the completion,
    or rejects. *)
Record LanguageModel : Type := {
  complete : CompletionRequest -> Result string
}.

Section Providers.
Variables ApiKeys ProviderSettings : Type.

Record Provider : Type := {
  staticModels : list string;      (* the names of the static models *)
  getModelInstance :
    string -> option ApiKeys -> option ProviderSettings -> Result LanguageModel
}.

Record ModelInfo : Type := { mi_name : string; mi_provider : string }.

Record LLMManager : Type := {
  getModelList : Result (list ModelInfo);
  getDefaultProvider : Result Provider;
  getProvider : string -> Result (option Provider)
}.
End Providers.
Arguments staticModels {ApiKeys ProviderSettings} _.
Arguments getModelInstance {ApiKeys ProviderSettings} _ _ _ _.
Arguments getModelList {ApiKeys ProviderSettings} _.
Arguments getDefaultProvider {ApiKeys ProviderSettings} _.
Arguments getProvider {ApiKeys ProviderSettings} _ _.

(* ================================================================== *)
(** * services/insurance-service.ts *)
(* ================================================================== *)

Record InsuranceServiceConfig : Type := {
  model : string;
  temperature : float;
  maxTokens : nat;
  useAI : option bool
}.

Definition DEFAULT_INSURANCE_CONFIG : InsuranceServiceConfig :=
  {| model := "gpt-3.5-turbo"; temperature := 0.7; maxTokens := 200;
     useAI := None |}.

Module InsuranceService.

(** ** The pure part: categorizer and context extractor *)

Definition health_keywords : list string :=
  ["health"; "medical"; "exam"; "pre-existing"; "condition"; "diabetes";
   "smoker"].
Definition claims_keywords : list string :=
  ["claim"; "file"; "beneficiary payout"; "death certificate";
   "process claim"].
Definition policy_keywords : list string :=
  ["policy"; "coverage"; "premium"; "cash value"; "term"; "whole life";
   "universal"; "variable"; "permanent"].

(** [lower.includes(k1) || ... || lower.includes(kn)] *)
Definition includes_any (lower : string) (keywords : list string) : bool :=
  existsb (includes lower) keywords.

(** The [try] body cannot throw on a string, so the [catch] that
    returns ['basic'] is never entered. *)
Definition categorizeQuestion (question : string) : QuestionCategory :=
  let lowerQuestion := toLowerCase question in
  if includes_any lowerQuestion health_keywords then health
  else if includes_any lowerQuestion claims_keywords then claims
  else if includes_any lowerQuestion policy_keywords then policy
  else basic.

(** [[0-9,]+] *)
Definition amount_chars : regex :=
  Plus (Cls (fun c => is_digit c || Ascii.eqb c ","%char)).

(** [/\$([0-9,]+)(?:k|K|thousand)|\$([0-9,]+)(?:m|M|million)|([0-9,]+) (?:thousand|million) dollars/] *)
Definition coverage_re : regex :=
  alts [ seq [Str "$"; Grp 1 amount_chars;
              alts [Str "k"; Str "K"; Str "thousand"]];
         seq [Str "$"; Grp 2 amount_chars;
              alts [Str "m"; Str "M"; Str "million"]];
         seq [Grp 3 amount_chars; Str " ";
              alts [Str "thousand"; Str "million"]; Str " dollars"] ].

(** [/\b(\d{1,2})\s*(?:years?\s*old|year-old|yo)\b/] *)
Definition age_re : regex :=
  seq [ WordB; Grp 1 (seq [Cls cls_d; Opt (Cls cls_d)]);
        Star (Cls cls_s);
        alts [ seq [Str "year"; Opt (Str "s"); Star (Cls cls_s); Str "old"];
               Str "year-old";
               Str "yo" ];
        WordB ].

(** [text.replace(/,/g, '')] *)
Definition strip_commas (text : string) : string :=
  replace_all (Str ",") "" text.

Definition times (x : option N) (k : N) : option N :=
  option_map (fun v => (v * k)%N) x.

Definition extractPolicyType (query : string) : option string :=
  let lower := toLowerCase query in
  if includes lower "term life" then Some "term"
  else if includes lower "whole life" then Some "whole"
  else if includes lower "universal life" then Some "universal"
  else if includes lower "variable life" then Some "variable"
  else None.

Definition extractCoverageAmount (query : string) : option N :=
  match exec coverage_re query with
  | Some coverageMatch =>
      let amount : option N :=
        match truthy_string (group coverageMatch 1) with
        | Some g1 => times (parseFloat (strip_commas g1)) 1000
        | None =>
            match truthy_string (group coverageMatch 2) with
            | Some g2 => times (parseFloat (strip_commas g2)) 1000000
            | None =>
                match truthy_string (group coverageMatch 3) with
                | Some g3 =>
                    let value := parseFloat (strip_commas g3) in
                    if includes query "million" then times value 1000000
                    else times value 1000
                | None => Some 0%N
                end
            end
        end in
      match amount with
      | Some a => if (0 <? a)%N then Some a else None
      | None => None
      end
  | None => None
  end.

Definition extractAge (query : string) : option N :=
  match exec age_re query with
  | Some ageMatch =>
      match truthy_string (group ageMatch 1) with
      | Some g1 =>
          match parseInt10 g1 with
          | Some a => if (0 <? a)%N && (a <? 120)%N then Some a else None
          | None => None
          end
      | None => None
      end
  | None => None
  end.

Definition extractHealthStatus (query : string) : option string :=
  let lower := toLowerCase query in
  if includes lower "diabetes" || includes lower "high blood pressure" ||
     includes lower "heart condition"
  then Some "pre-existing condition"
  else if includes lower "smoker" || includes lower "smoke cigarettes"
  then Some "smoker"
  else if includes lower "excellent health" || includes lower "good health"
  then Some "good health"
  else None.

Definition extractContextFromQuery (query : string)
  (category : QuestionCategory) : Context :=
  {| ctx_category := Some category;
     policyType := extractPolicyType query;
     coverageAmount := extractCoverageAmount query;
     age := extractAge query;
     healthStatus := extractHealthStatus query |}.

Definition generateInsurancePrompt (query : string) (context : Context)
  : string :=
  let systemPrompt :=
    "You are an expert insurance advisor specializing in life and health insurance. " ++ nl ++
    "Provide helpful, accurate, and concise responses about insurance topics." ++ nl ++
    "Base your responses on factual information about insurance products, policies, and industry standards." ++ nl ++
    "Always maintain a professional and supportive tone." ++ nl ++
    nl ++
    match truthy_string (policyType context) with
    | Some pt => "The user is asking about " ++ pt ++ " life insurance."
    | None => ""
    end ++ nl ++
    match truthy_number (coverageAmount context) with
    | Some amount =>
        "The user is interested in coverage around $" ++ toLocaleString amount ++ "."
    | None => ""
    end ++ nl ++
    match truthy_string (healthStatus context) with
    | Some hs => "The user has mentioned " ++ hs ++ " as a health consideration."
    | None => ""
    end ++ nl ++
    match truthy_number (age context) with
    | Some a => "The user is " ++ string_of_N a ++ " years old."
    | None => ""
    end ++ nl ++
    nl ++
    "Current conversation category: " ++
    match ctx_category context with
    | Some c => category_string c
    | None => "basic"
    end in
  systemPrompt ++ nl ++ nl ++ "User: " ++ query ++ nl ++ nl ++ "Assistant:".

Definition additional_information (text : string) : string :=
  nl ++ nl ++ "Additional information: " ++ text.

Section Service.

Variables ApiKeys ProviderSettings : Type.
Variable config : InsuranceServiceConfig.
Variable knowledgeBase : KnowledgeBase.t.
Variable llmManager : LLMManager ApiKeys ProviderSettings.
(** [this.responseGenerator.generateResponse] *)
Variable generateResponse : ResponseContext -> Result FormattedResponse.

Definition getLanguageModel (modelName : string) (apiKeys : option ApiKeys)
  (providerSettings : option ProviderSettings) : Result LanguageModel :=
  try_catch
    (modelList <- getModelList llmManager ;;
     match find (fun m => String.eqb (mi_name m) modelName) modelList with
     | None =>
         defaultProvider <- getDefaultProvider llmManager ;;
         match staticModels defaultProvider with
         | first :: _ =>
             getModelInstance defaultProvider first apiKeys providerSettings
         | [] =>
             Throw (TypeError "Cannot read properties of undefined (reading 'name')")
         end
     | Some modelInfo =>
         provider <- getProvider llmManager (mi_provider modelInfo) ;;
         match provider with
         | None =>
             Throw (OtherError ("Provider " ++ mi_provider modelInfo ++
                                " not found for model " ++ modelName))
         | Some pr => getModelInstance pr modelName apiKeys providerSettings
         end
     end)
    (fun error =>
       openAIProvider <- getProvider llmManager "OpenAI" ;;
       match openAIProvider with
       | Some pr => getModelInstance pr "gpt-3.5-turbo" apiKeys providerSettings
       | None =>
           Throw (OtherError
                    ("Failed to get language model and no fallback available: "
                     ++ error_message error))
       end).

(** The [try] body cannot throw on strings; its [catch] would return
    [aiResponse]. *)
Definition enhanceResponseWithKnowledgeBase (aiResponse query : string)
  (context : Context) (category : QuestionCategory) : string :=
  let relevantInfo :=
    KnowledgeBase.findRelevantInformation knowledgeBase query in
  if String.eqb relevantInfo "" then aiResponse
  else
    let policyInfo :=
      match truthy_string (policyType context) with
      | Some pt => findPolicyType pt
      | None => None
      end in
    match policyInfo with
    | Some info =>
        if negb (includes_ci aiResponse (description info))
        then aiResponse ++ additional_information (description info)
        else if negb (includes_ci aiResponse relevantInfo)
        then aiResponse ++ additional_information relevantInfo
        else aiResponse
    | None =>
        if negb (includes_ci aiResponse relevantInfo)
        then aiResponse ++ additional_information relevantInfo
        else aiResponse
    end.

Definition apology : string :=
  "Sorry, I'm having trouble answering that question about insurance. Please try rephrasing it or ask something else.".

Definition ai_enabled (modelOverride : option string) : bool :=
  match truthy_string modelOverride with
  | Some _ => true
  | None => match useAI config with Some false => false | _ => true end
  end.

Definition from_knowledge_base (query : string) (context : Context)
  : Result string :=
  response <- generateResponse
                {| userQuery := query; previousMessages := None;
                   userData := Some context |} ;;
  Ok (message response).

(** The AI path: the body of the [try] whose [catch] falls back to the
    knowledge base. *)
Definition ai_response (query : string) (context : Context)
  (category : QuestionCategory) (modelOverride : option string)
  (apiKeys : option ApiKeys) (providerSettings : option ProviderSettings)
  : Result string :=
  mdl <- getLanguageModel
           (match truthy_string modelOverride with
            | Some m => m
            | None => model config
            end)
           apiKeys providerSettings ;;
  let prompt := generateInsurancePrompt query context in
  try_catch
    (completion <- complete mdl
                     {| prompt := prompt;
                        req_temperature := temperature config;
                        req_maxTokens := maxTokens config |} ;;
     Ok (enhanceResponseWithKnowledgeBase completion query context category))
    (fun modelError => Throw modelError).

Definition processQuery (query : string) (modelOverride : option string)
  (apiKeys : option ApiKeys) (providerSettings : option ProviderSettings)
  : Result string :=
  try_catch
    (let category := categorizeQuestion query in
     let context := extractContextFromQuery query category in
     if ai_enabled modelOverride then
       try_catch
         (ai_response query context category modelOverride apiKeys
            providerSettings)
         (fun aiError => from_knowledge_base query context)
     else from_knowledge_base query context)
    (fun error => Ok apology).

(** The [try] body cannot throw; its [catch] would return three fixed
    generic questions. *)
Definition generateFollowUpQuestions (category : QuestionCategory)
  (query : string) : list string :=
  let relatedTopics := KnowledgeBase.getRelatedTopics knowledgeBase query in
  let topicQuestions :=
    map (fun topic => "What can you tell me about " ++ topic ++ "?")
        relatedTopics in
  let categoryQuestions :=
    match category with
    | basic => [ "What types of life insurance are available?";
                 "How much coverage do I need?";
                 "What affects my insurance premium cost?" ]
    | health => [ "How do health conditions affect my coverage?";
                  "Do I need a medical exam for insurance?";
                  "Can I get insurance with pre-existing conditions?" ]
    | policy => [ "What's the difference between term and whole life?";
                  "Can I modify my policy after purchase?";
                  "How do premiums change over time?" ]
    | claims => [ "What documents are needed for a claim?";
                  "How long does the claims process take?";
                  "Who can file a claim?" ]
    end in
  slice0 3 (unique (topicQuestions ++ categoryQuestions)%list).

Definition searchKnowledgeBase (query : string) : list KnowledgeBaseEntry :=
  KnowledgeBase.search knowledgeBase query.

End Service.
End InsuranceService.


(* ================================================================== *)
(** * hooks/useInsuranceChat.ts *)
(* ================================================================== *)

Module useInsuranceChat.

Inductive Role : Type := user | assistant.

(** The [timestamp] field, the wall-clock time of creation, is left
    out. *)
Record InsuranceMessage : Type := {
  content : string;
  role : Role;
  msg_category : option QuestionCategory;
  msg_suggestions : option (list string)
}.

(** What the hook calls on [serviceRef.current]; every call is inside
    the [try] block of [sendMessage]. *)
Record Service : Type := {
  svc_categorizeQuestion : string -> Result QuestionCategory;
  svc_extractContextFromQuery :
    option (string -> QuestionCategory -> Result Context);
  svc_processQuery : string -> option string -> Result string;
  svc_generateFollowUpQuestions :
    QuestionCategory -> string -> Result (list string)
}.

(** The state cells and refs of the hook. *)
Record State : Type := {
  messages : list InsuranceMessage;
  isLoading : bool;
  error : option Error;
  suggestions : list string;
  modelOverride : option string;
  lastMessageRef : string;
  contextRef : Context
}.

Definition empty_context : Context :=
  {| ctx_category := None; policyType := None; coverageAmount := None;
     age := None; healthStatus := None |}.

(** [x] if present, else [y]. *)
Definition orElse {A} (x y : option A) : option A :=
  match x with Some _ => x | None => y end.

(** [{...old, ...extracted}] *)
Definition spread (old extracted : Context) : Context :=
  {| ctx_category := orElse (ctx_category extracted) (ctx_category old);
     policyType := orElse (policyType extracted) (policyType old);
     coverageAmount := orElse (coverageAmount extracted) (coverageAmount old);
     age := orElse (age extracted) (age old);
     healthStatus := orElse (healthStatus extracted) (healthStatus old) |}.

Definition userMessage (text : string) : InsuranceMessage :=
  {| content := text; role := user; msg_category := None;
     msg_suggestions := None |}.

Definition assistantMessage (response : string) (category : QuestionCategory)
  (followUpSuggestions : list string) : InsuranceMessage :=
  {| content := response; role := assistant; msg_category := Some category;
     msg_suggestions := Some followUpSuggestions |}.

Section Hook.

(** The options of the hook and what local storage holds on mount. *)
Variable initialMessages : list InsuranceMessage.
Variable persistMessages : bool.
Variable svc : Service.

(** The state on mount; [saved] is the parsed local-storage item. *)
Definition mount (saved : option (list InsuranceMessage)) : State :=
  {| messages := match (if persistMessages then saved else None) with
                 | Some parsed => parsed
                 | None => initialMessages
                 end;
     isLoading := false;
     error := None;
     suggestions := [];
     modelOverride := None;
     lastMessageRef := "";
     contextRef := empty_context |}.

(** [sendMessage] up to its first [await]: the turn is in flight. *)
Definition send_begin (text : string) (st : State) : State :=
  {| messages := (messages st ++ [userMessage text])%list;
     isLoading := true;
     error := None;
     suggestions := suggestions st;
     modelOverride := modelOverride st;
     lastMessageRef := text;
     contextRef := contextRef st |}.

(** The awaited calls: the context ref after them, and either the
    reply with its category and follow-ups or the error thrown. *)
Definition await_service (text : string) (st : State)
  : Context * Result (QuestionCategory * string * list string) :=
  match svc_categorizeQuestion svc text with
  | Throw e => (contextRef st, Throw e)
  | Ok category =>
      match match svc_extractContextFromQuery svc with
            | Some extract => extract text category
            | None => Ok empty_context
            end with
      | Throw e => (contextRef st, Throw e)
      | Ok extractedContext =>
          let ctx := spread (contextRef st) extractedContext in
          (ctx,
           response <- svc_processQuery svc text (modelOverride st) ;;
           followUpSuggestions <-
             svc_generateFollowUpQuestions svc category text ;;
           Ok (category, response, followUpSuggestions))
      end
  end.

(** The rest of the [try] block, the [catch] and the [finally]. *)
Definition send_end (outcome : Context * Result (QuestionCategory * string * list string))
  (st : State) : State :=
  match snd outcome with
  | Ok (category, response, followUpSuggestions) =>
      {| messages :=
           (messages st
              ++ [assistantMessage response category followUpSuggestions])%list;
         isLoading := false;
         error := error st;
         suggestions := followUpSuggestions;
         modelOverride := modelOverride st;
         lastMessageRef := lastMessageRef st;
         contextRef := fst outcome |}
  | Throw e =>
      {| messages := messages st;
         isLoading := false;
         error := Some e;
         suggestions := suggestions st;
         modelOverride := modelOverride st;
         lastMessageRef := lastMessageRef st;
         contextRef := fst outcome |}
  end.

Definition sendMessage (text : string) (st : State) : State :=
  let inflight := send_begin text st in
  send_end (await_service text inflight) inflight.

Definition resetChat (st : State) : State :=
  {| messages := initialMessages;
     isLoading := isLoading st;
     error := None;
     suggestions := [];
     modelOverride := None;
     lastMessageRef := "";
     contextRef := empty_context |}.

Definition setModelOverride (modelName : option string) (st : State) : State :=
  {| messages := messages st;
     isLoading := isLoading st;
     error := error st;
     suggestions := suggestions st;
     modelOverride := modelName;
     lastMessageRef := lastMessageRef st;
     contextRef := contextRef st |}.

(** What the user can do between turns. *)
Inductive action : Type :=
| Send (text : string)
| Reset
| SetModel (modelName : option string).

Definition perform (a : action) (st : State) : State :=
  match a with
  | Send text => sendMessage text st
  | Reset => resetChat st
  | SetModel m => setModelOverride m st
  end.

(** The states between turns of a session: turns run one at a time. *)
Inductive reachable (saved : option (list InsuranceMessage)) : State -> Prop :=
| reach_mount : reachable saved (mount saved)
| reach_step : forall a st,
    reachable saved st -> reachable saved (perform a st).

End Hook.

(** The hook builds its service from [InsuranceService]. *)
Definition service_of {ApiKeys ProviderSettings : Type}
  (config : InsuranceServiceConfig)
  (llmManager : LLMManager ApiKeys ProviderSettings)
  (apiKeys : option ApiKeys) (providerSettings : option ProviderSettings)
  : Service :=
  let kb := KnowledgeBase.new in
  {| svc_categorizeQuestion :=
       fun q => Ok (InsuranceService.categorizeQuestion q);
     svc_extractContextFromQuery :=
       Some (fun q c => Ok (InsuranceService.extractContextFromQuery q c));
     svc_processQuery :=
       fun q override =>
         InsuranceService.processQuery ApiKeys ProviderSettings config kb
           llmManager (ResponseGenerator.generateResponse kb)
           q override apiKeys providerSettings;
     svc_generateFollowUpQuestions :=
       fun c q => Ok (InsuranceService.generateFollowUpQuestions kb c q) |}.

End useInsuranceChat.

(* ================================================================== *)
(** * More of the sources *)
(* ================================================================== *)

(** ** [String.prototype.replace] with a global regex and a function

    The function receives the matched text and the captures; what it
    returns is inserted as it is. *)

Fixpoint replace_from_fn (fuel : nat) (r : regex)
  (f : string -> list (nat * string) -> string) (input : string)
  (prev : option ascii) (rest : string) (pos : nat) : string :=
  match fuel with
  | O => rest
  | S fuel' =>
      match search_from r prev rest pos with
      | None => rest
      | Some mt =>
          let skipped := String.substring 0 (m_index mt - pos) rest in
          let matched :=
            String.substring (m_index mt) (m_end mt - m_index mt) input in
          let out := skipped ++ f matched (m_caps mt) in
          if Nat.eqb (m_end mt) (m_index mt) then
            match drop (m_index mt - pos) rest with
            | String a rest' =>
                out ++ String a
                  (replace_from_fn fuel' r f input (Some a) rest'
                     (S (m_index mt)))
            | EmptyString => out
            end
          else
            out ++ replace_from_fn fuel' r f input
                     (char_before (m_end mt) input)
                     (drop (m_end mt - pos) rest) (m_end mt)
      end
  end.

Definition replace_all_fn (r : regex)
  (f : string -> list (nat * string) -> string) (s : string) : string :=
  replace_from_fn (S (String.length s)) r f s None s 0.

(** ** utils/knowledge-base.ts: the response templates *)

Record ResponseTemplate : Type := {
  intent : string;
  responses : list string;
  contextRequired : option (list string)
}.

Definition responseTemplates : list ResponseTemplate :=
  [ {| intent := "policy_explanation";
       responses :=
         [ "{{policyType}} provides {{description}}. Key features include: {{features}}";
           "A {{policyType}} policy is designed to {{description}}. You might consider this if you need: {{bestFor}}" ];
       contextRequired := Some ["policyType"] |};
    {| intent := "term_definition";
       responses :=
         [ "{{term}} refers to {{definition}}";
           "In insurance terms, {{term}} means {{definition}}" ];
       contextRequired := Some ["term"] |} ].

Definition getResponseTemplate (name : string) : option ResponseTemplate :=
  find (fun template => String.eqb (intent template) name) responseTemplates.

(** ** services/response-generator.ts: templated responses

    The variables are an object with string values, given as its list
    of own properties (each key once). *)

Definition Variables : Type := list (string * string).

(** [variables[key]]: [None] is [undefined]. *)
Fixpoint variable (variables : Variables) (key : string) : option string :=
  match variables with
  | [] => None
  | (k, v) :: rest => if String.eqb k key then Some v else variable rest key
  end.

(** [/\{\{(\w+)\}\}/g] *)
Definition template_re : regex :=
  seq [Str "{{"; Grp 1 (Plus (Cls cls_w)); Str "}}"].

(** [(match, key) => variables[key] || match] *)
Definition fill_with (variables : Variables) (matched : string)
  (caps : list (nat * string)) : string :=
  match lookup_cap 1 caps with
  | Some key =>
      match truthy_string (variable variables key) with
      | Some v => v
      | None => matched
      end
  | None => matched
  end.

Definition fillTemplate (template : string) (variables : Variables) : string :=
  replace_all_fn template_re (fill_with variables) template.

(** [Math.floor(Math.random() * n)] is an index below [n]: the drawn
    number [rnd] reduced modulo [n]. *)
Definition generateTemplatedResponse (templateName : string)
  (variables : Variables) (rnd : nat) : Result string :=
  match getResponseTemplate templateName with
  | None =>
      Ok ("I don't have a template for " ++ String dquote templateName
          ++ String dquote ". Let me provide you with general information instead.")
  | Some template =>
      let missingContext :=
        filter (fun ctx =>
                  match truthy_string (variable variables ctx) with
                  | Some _ => false
                  | None => true
                  end)
               (or_empty (contextRequired template)) in
      if Nat.ltb 0 (List.length missingContext) then
        Ok ("I need more information about " ++ join ", " missingContext
            ++ " to answer that fully.")
      else
        match nth_error (responses template)
                (rnd mod List.length (responses template)) with
        | Some responseTemplate => Ok (fillTemplate responseTemplate variables)
        | None =>
            Throw (TypeError "Cannot read properties of undefined (reading 'replace')")
        end
  end.

(** ** services/insurance-service.ts: the lookups *)

(** The [try] bodies cannot throw; [null] is [None]. *)
Definition getPolicyInformation (pt : string) : option PolicyType :=
  findPolicyType pt.

Definition getTermDefinition (tm : string) : option string :=
  match findTerm tm with
  | Some termInfo => Some (idef_definition termInfo)
  | None => None
  end.

(** ** middleware/chat-middleware.ts *)

Module ChatMiddleware.

Record ProcessMessageResponse : Type := {
  pm_message : string;
  pm_suggestions : option (list string);
  pm_category : option QuestionCategory
}.

(** Here the policy type is looked for in the message as it is, without
    lowering its case, and there is no variable life. *)
Definition extractUserContext (message : string) (category : QuestionCategory)
  : Context :=
  {| ctx_category := Some category;
     policyType :=
       if includes message "term life" then Some "term"
       else if includes message "whole life" then Some "whole"
       else if includes message "universal life" then Some "universal"
       else None;
     coverageAmount :=
       match exec InsuranceService.coverage_re message with
       | Some coverageMatch =>
           let amount : option N :=
             match truthy_string (group coverageMatch 1) with
             | Some g1 =>
                 InsuranceService.times
                   (parseFloat (InsuranceService.strip_commas g1)) 1000
             | None =>
                 match truthy_string (group coverageMatch 2) with
                 | Some g2 =>
                     InsuranceService.times
                       (parseFloat (InsuranceService.strip_commas g2)) 1000000
                 | None =>
                     match truthy_string (group coverageMatch 3) with
                     | Some g3 =>
                         let value :=
                           parseFloat (InsuranceService.strip_commas g3) in
                         if includes message "million"
                         then InsuranceService.times value 1000000
                         else InsuranceService.times value 1000
                     | None => Some 0%N
                     end
                 end
             end in
           match amount with
           | Some a => if (0 <? a)%N then Some a else None
           | None => None
           end
       | None => None
       end;
     age := None;
     healthStatus := None |}.

Section Middleware.

(** [this.insuranceService.categorizeQuestion], of the class that
    [../services] exports, and the knowledge base of the constructor. *)
Variable categorizeQuestion : string -> Result QuestionCategory.
Variable knowledgeBase : KnowledgeBase.t.

Definition processMessage (text : string) : ProcessMessageResponse :=
  match
    (category <- categorizeQuestion text ;;
     let userContext := extractUserContext text category in
     response <- ResponseGenerator.generateResponse knowledgeBase
                   {| userQuery := text; previousMessages := None;
                      userData := Some userContext |} ;;
     Ok {| pm_message := message response;
           pm_suggestions := suggestions response;
           pm_category := Some category |})
  with
  | Ok result => result
  | Throw error =>
      let errorResponse := ResponseGenerator.generateErrorResponse error in
      {| pm_message := message errorResponse;
         pm_suggestions := suggestions errorResponse;
         pm_category := None |}
  end.

End Middleware.

Definition generateSuggestions (category : QuestionCategory) : list string :=
  match category with
  | basic =>
      [ "What types of life insurance are available?";
        "How much does life insurance typically cost?";
        "What factors affect my insurance premium?" ]
  | health =>
      [ "Do I need a medical exam for life insurance?";
        "How do pre-existing conditions affect my coverage?";
        "Can I get life insurance if I have diabetes?" ]
  | policy =>
      [ "What's the difference between term and whole life insurance?";
        "How do I file a claim?";
        "Can I modify my policy after purchase?" ]
  | claims =>
      [ "How long does the claims process take?";
        "What documents are needed for a claim?";
        "Are there situations where a claim might be denied?" ]
  end.

End ChatMiddleware.

(* ================================================================== *)
(** * The cache service (second part of insurance-service.ts) *)
(* ================================================================== *)

Module CacheService.
Section Cache.

(** The cached values; [None] is [null].  Times are in milliseconds
    ([Date.now()]), lifetimes in seconds; both are integers. *)
Variable V : Type.

Record Item : Type := {
  item_value : option V;
  item_expiry : option Z          (* [undefined] is [None] *)
}.

(** A [Map] from strings to items, in insertion order. *)
Definition Store : Type := list (string * Item).

Fixpoint map_get (store : Store) (key : string) : option Item :=
  match store with
  | [] => None
  | (k, item) :: rest => if String.eqb k key then Some item else map_get rest key
  end.

Fixpoint map_set (store : Store) (key : string) (item : Item) : Store :=
  match store with
  | [] => [(key, item)]
  | (k, old) :: rest =>
      if String.eqb k key then (k, item) :: rest
      else (k, old) :: map_set rest key item
  end.

Definition map_delete (store : Store) (key : string) : Store :=
  filter (fun kv => negb (String.eqb (fst kv) key)) store.

(** Truthiness of an optional number. *)
Definition truthy_Z (x : option Z) : option Z :=
  match x with
  | Some z => if (z =? 0)%Z then None else Some z
  | None => None
  end.

(** [MemoryStorage.get], at time [now]. *)
Definition storage_get (now : Z) (store : Store) (key : string)
  : option V * Store :=
  match map_get store key with
  | None => (None, store)
  | Some item =>
      match truthy_Z (item_expiry item) with
      | Some expiry =>
          if (expiry <? now)%Z then (None, map_delete store key)
          else (item_value item, store)
      | None => (item_value item, store)
      end
  end.

(** [MemoryStorage.set], at time [now]. *)
Definition storage_set (now : Z) (store : Store) (key : string)
  (value : option V) (ttl : option Z) : Store :=
  let expiry :=
    match truthy_Z ttl with
    | Some seconds => Some (now + seconds * 1000)%Z
    | None => None
    end in
  map_set store key {| item_value := value; item_expiry := expiry |}.

(** A [CacheService] over the in-memory backend ([options.storage] is
    not ['redis'], or [config.redis] is absent).  The logger given to
    the constructor only records: its calls return, so no [catch] of
    the class is entered. *)
Record t : Type := {
  storage : Store;
  prefix : string;
  defaultTTL : Z
}.

(** [new CacheService(config, logger, {prefix, ttl})] *)
Definition new (opt_prefix : option string) (opt_ttl : option Z) : t :=
  {| storage := [];
     prefix := match truthy_string opt_prefix with
               | Some p => p
               | None => "insurance:"
               end;
     defaultTTL := match truthy_Z opt_ttl with
                   | Some seconds => seconds
                   | None => 3600%Z
                   end |}.

Definition getKey (cache : t) (key : string) : string := prefix cache ++ key.

Definition with_storage (cache : t) (store : Store) : t :=
  {| storage := store; prefix := prefix cache; defaultTTL := defaultTTL cache |}.

Definition get (now : Z) (cache : t) (key : string) : option V * t :=
  let r := storage_get now (storage cache) (getKey cache key) in
  (fst r, with_storage cache (snd r)).

(** [ttl || this.defaultTTL] *)
Definition lifetime (cache : t) (ttl : option Z) : Z :=
  match truthy_Z ttl with
  | Some seconds => seconds
  | None => defaultTTL cache
  end.

Definition set (now : Z) (cache : t) (key : string) (value : option V)
  (ttl : option Z) : t :=
  with_storage cache
    (storage_set now (storage cache) (getKey cache key) value
       (Some (lifetime cache ttl))).

Definition delete (cache : t) (key : string) : t :=
  with_storage cache (map_delete (storage cache) (getKey cache key)).

Definition clear (cache : t) : t := with_storage cache [].

(** [getOrSet]: the lookup happens at time [now], the store, if any, at
    time [later]; [factory] is the outcome of the factory's promise. *)
Definition getOrSet (now later : Z) (cache : t) (key : string)
  (factory : Result (option V)) (ttl : option Z) : Result (option V) * t :=
  match get now cache key with
  | (Some cached, cache') => (Ok (Some cached), cache')
  | (None, cache') =>
      match factory with
      | Ok value => (Ok value, set later cache' key value ttl)
      | Throw e => (Throw e, cache')
      end
  end.

End Cache.
End CacheService.

(** The six intents of [analyzeIntent]. *)
Definition intents : list string :=
  ["policy_explanation"; "term_definition"; "coverage_question";
   "health_question"; "claims_question"; "general_insurance_query"].

(** The keys of the context bag. *)
Definition context_keys : list string :=
  ["category"; "policyType"; "coverageAmount"; "age"; "healthStatus"].

(** What the generator answers on the table of the sources when there
    are no previous messages: the fallback sentence for the intent, with
    the follow-ups of the first entry that the sentence itself names. *)
Definition fallback_response (intent : string) : FormattedResponse :=
  {| message := KnowledgeBase.no_information intent;
     suggestions := Some ["What is whole life insurance?"; "What is premium?";
                          "What is death benefit?"];
     relatedTopics := Some ["whole life insurance"; "premium"; "death benefit"];
     confidence := 0.5 |}.

(** The [suggestions] field of a formatted response. *)
Definition response_suggestions (r : FormattedResponse) : option (list string) :=
  suggestions r.

(** A regex without capture groups. *)
Fixpoint group_free (r : regex) : bool :=
  match r with
  | Cat r1 r2 | Alt r1 r2 => group_free r1 && group_free r2
  | Star r1 => group_free r1
  | Grp _ _ => false
  | _ => true
  end.

(** A manager that knows one model whose provider is not registered. *)
Definition orphan_manager : LLMManager unit unit :=
  {| getModelList := Ok [ {| mi_name := "claude-3"; mi_provider := "Anthropic" |} ];
     getDefaultProvider := Throw (OtherError "no default provider");
     getProvider := fun _ => Ok None |}.

(** A cache of texts with the default options. *)
Definition text_cache : CacheService.t string := CacheService.new string None None.

(** The last element of a list, if any. *)
Fixpoint last_error {A} (l : list A) : option A :=
  match l with
  | [] => None
  | [x] => Some x
  | _ :: rest => last_error rest
  end.

(* ================================================================== *)
(** * Vocabulary and fixtures of the properties *)
(* ================================================================== *)

Definition query_C1 : string := "I want a $500,000 term life policy".

(** The topic contains the term of the entry, or the term contains the
    topic, ignoring case. *)
Definition partial_match (topic : string) (e : KnowledgeBaseEntry) : bool :=
  includes_ci topic (term e) || includes_ci (term e) topic.

Definition b2n (b : bool) : nat := if b then 1 else 0.

(** Confidence as a function of the number of detail keywords found. *)
Definition detail_confidence (n : nat) : float :=
  Math_min (0.7 + float_of_nat n * 0.05) 0.95.

Definition errorResponse : FormattedResponse :=
  {| message :=
       "I apologize, but I'm having trouble processing your request. Please try rephrasing your question or contact our support team for assistance.";
     suggestions :=
       Some [ "Can you explain your insurance needs?";
              "What type of coverage are you looking for?";
              "Would you like to speak with an insurance agent?" ];
     relatedTopics := None;
     confidence := 1 |}.

Definition getAllTerms_error : Error :=
  TypeError "this.knowledgeBase.getAllTerms is not a function".

Definition context_with_history : ResponseContext :=
  {| userQuery := "How much does it cost?";
     previousMessages := Some ["Tell me more about that premium"];
     userData := None |}.

(** The policy looked up for a context, in [applyContext] and in
    [enhanceResponseWithKnowledgeBase] alike. *)
Definition policyInfo_of (context : Context) : option PolicyType :=
  match truthy_string (policyType context) with
  | Some pt => findPolicyType pt
  | None => None
  end.

(** A provider whose models reject every completion request. *)
Definition rejecting_model : LanguageModel :=
  {| complete := fun _ => Throw (OtherError "429 rate limit exceeded") |}.

Definition rejecting_provider : Provider unit unit :=
  {| staticModels := ["gpt-3.5-turbo"];
     getModelInstance := fun _ _ _ => Ok rejecting_model |}.

Definition rejecting_manager : LLMManager unit unit :=
  {| getModelList := Ok [ {| mi_name := "gpt-3.5-turbo"; mi_provider := "OpenAI" |} ];
     getDefaultProvider := Ok rejecting_provider;
     getProvider := fun _ => Ok (Some rejecting_provider) |}.

Definition rejecting_generator (_ : ResponseContext) : Result FormattedResponse :=
  Throw (OtherError "generator unavailable").

Import useInsuranceChat.

(** A session that starts empty, with nothing in local storage. *)
Definition fresh_session : State := mount [] true None.

(** A service whose [processQuery] rejects every query. *)
Definition failing_service : Service :=
  {| svc_categorizeQuestion := fun q => Ok (InsuranceService.categorizeQuestion q);
     svc_extractContextFromQuery :=
       Some (fun q c => Ok (InsuranceService.extractContextFromQuery q c));
     svc_processQuery := fun _ _ => Throw (OtherError "Mock error");
     svc_generateFollowUpQuestions := fun _ _ => Ok [] |}.

(** The service of the sources with a provider that is down. *)
Definition offline_service : Service :=
  service_of DEFAULT_INSURANCE_CONFIG rejecting_manager None None.

(** A service that rejects the query "error" and answers the others. *)
Definition flaky_service : Service :=
  {| svc_categorizeQuestion := svc_categorizeQuestion offline_service;
     svc_extractContextFromQuery := svc_extractContextFromQuery offline_service;
     svc_processQuery :=
       fun q _ => if String.eqb q "error"
                  then Throw (OtherError "Mock error")
                  else Ok "I can help you with insurance questions.";
     svc_generateFollowUpQuestions :=
       svc_generateFollowUpQuestions offline_service |}.

(* ================================================================== *)
(** * Properties *)
(* ================================================================== *)

(** ** Auxiliary facts on lists *)

Lemma existsb_none {A} (p : A -> bool) (l : list A) :
  (forall x, In x l -> p x = false) -> existsb p l = false.
Proof.
  induction l as [|a l IH]; intros H; simpl; [reflexivity|].
  rewrite (H a (or_introl eq_refl)), IH; [reflexivity|].
  intros x Hx. apply H. right. exact Hx.
Qed.

Lemma find_absent {A} (p : A -> bool) (l : list A) :
  (forall x, In x l -> p x = false) -> find p l = None.
Proof.
  induction l as [|a l IH]; intros H; simpl; [reflexivity|].
  rewrite (H a (or_introl eq_refl)). apply IH.
  intros x Hx. apply H. right. exact Hx.
Qed.

Lemma filter_absent {A} (p : A -> bool) (l : list A) :
  (forall x, In x l -> p x = false) -> filter p l = [].
Proof.
  induction l as [|a l IH]; intros H; simpl; [reflexivity|].
  rewrite (H a (or_introl eq_refl)). apply IH.
  intros x Hx. apply H. right. exact Hx.
Qed.

Lemma filter_first {A} (p : A -> bool) (l1 l2 : list A) (e : A) :
  (forall x, In x l1 -> p x = false) -> p e = true ->
  filter p (l1 ++ e :: l2)%list = e :: filter p l2.
Proof.
  intros H1 He. rewrite filter_app, (filter_absent p l1 H1). simpl.
  rewrite He. reflexivity.
Qed.

(** ** The context extractor *)

(** C1 (the code departs from the claim).  On the input
    "I want a $500,000 term life policy" the extractor does set
    policyType to "term", but the coverage-amount regex needs a k, m,
    thousand or million after the digits: it has no match on "$500,000",
    so the context carries no coverageAmount at all. *)
Theorem C1_no_coverage_amount_for_plain_dollars :
  exec InsuranceService.coverage_re query_C1 = None /\
  InsuranceService.extractContextFromQuery query_C1
    (InsuranceService.categorizeQuestion query_C1)
  = {| ctx_category := Some policy;
       policyType := Some "term";
       coverageAmount := None;
       age := None;
       healthStatus := None |}.
Proof. split; vm_compute; reflexivity. Qed.

(** The suffixed spellings are recognised. *)
Example coverage_with_suffix :
  map InsuranceService.extractCoverageAmount
      ["I want a $500k term life policy"; "need $1M in coverage";
       "about 250 thousand dollars"; "$1,500thousand"; "$0k"; "$,k"]
  = [Some 500000%N; Some 1000000%N; Some 250000%N; Some 1500000%N; None; None].
Proof. vm_compute. reflexivity. Qed.

Example extract_age_and_amount :
  InsuranceService.extractContextFromQuery
    "I am 40 years old and need $1M in coverage" policy
  = {| ctx_category := Some policy;
       policyType := None;
       coverageAmount := Some 1000000%N;
       age := Some 40%N;
       healthStatus := None |}.
Proof. vm_compute. reflexivity. Qed.

Example extractAge_examples :
  map InsuranceService.extractAge
      ["I'm 35 years old"; "a 7yo"; "my 42 year-old husband"; "40years  old";
       "I am 135 years old"; "x99 years old"; "00 years old"; "35 yoga mats"]
  = [Some 35%N; Some 7%N; Some 42%N; Some 40%N; None; None; None; None].
Proof. vm_compute. reflexivity. Qed.

(** Group references in a replacement text: a formatted amount that
    starts with "$1" picks up the first capture. *)
Example replacement_templates :
  replace_all ResponseGenerator.your_coverage_re "your $500,000 coverage"
    "Review your policy and your coverage."
  = "Review your $500,000 coverage and your $500,000 coverage."
  /\ replace_all ResponseGenerator.your_coverage_re "your $1,000,000 coverage"
       "Review your policy."
     = "Review your your policy,000,000 coverage."
  /\ replace_all (Str ",") "" "1,250,000" = "1250000".
Proof. vm_compute. repeat split; reflexivity. Qed.

(** ** The question categorizer *)

Lemma includes_any_true (lower : string) (keywords : list string) :
  (exists kw, In kw keywords /\ includes lower kw = true) ->
  InsuranceService.includes_any lower keywords = true.
Proof.
  intros [kw [Hin Hkw]]. apply existsb_exists. exists kw. split; assumption.
Qed.

(** C3.  A text that contains one of the health keywords, whatever its
    case, is categorized as health, also when claims or policy keywords
    occur in it; a text with no keyword of any of the three groups is
    categorized as basic. *)
Theorem C3_health_first_basic_last (text : string) :
  ((exists kw,
       In kw ["health"; "medical"; "exam"; "pre-existing"; "condition";
              "diabetes"; "smoker"] /\
       includes (toLowerCase text) kw = true) ->
   InsuranceService.categorizeQuestion text = health)
  /\
  ((forall kw,
       In kw (InsuranceService.health_keywords
                ++ InsuranceService.claims_keywords
                ++ InsuranceService.policy_keywords)%list ->
       includes (toLowerCase text) kw = false) ->
   InsuranceService.categorizeQuestion text = basic).
Proof.
  unfold InsuranceService.categorizeQuestion. split.
  - intros H.
    rewrite (includes_any_true _ InsuranceService.health_keywords H).
    reflexivity.
  - intros H. unfold InsuranceService.includes_any.
    rewrite !existsb_none; [reflexivity| | |];
      intros x Hx; apply H; rewrite !in_app_iff; auto.
Qed.

Lemma C3_witness :
  InsuranceService.categorizeQuestion
    "I have Diabetes: can I file a claim on my term policy?" = health
  /\ InsuranceService.categorizeQuestion "Hello, who are you?" = basic.
Proof.
  split.
  - apply (proj1 (C3_health_first_basic_last
                    "I have Diabetes: can I file a claim on my term policy?")).
    exists "diabetes". split; [simpl; tauto | vm_compute; reflexivity].
  - apply (proj2 (C3_health_first_basic_last "Hello, who are you?")).
    intros kw Hkw. simpl in Hkw.
    repeat (destruct Hkw as [<- | Hkw]; [vm_compute; reflexivity|]).
    destruct Hkw.
Defined.

(** ** The knowledge base *)

Lemma exact_match_found (topic : string) (e : KnowledgeBaseEntry) :
  In e KnowledgeBase.initial_entries ->
  eq_ci (term e) topic = true ->
  find (KnowledgeBase.is_exact topic) KnowledgeBase.initial_entries = Some e.
Proof.
  intros Hin Heq. apply String.eqb_eq in Heq.
  unfold KnowledgeBase.is_exact. rewrite <- Heq. clear Heq.
  simpl in Hin.
  repeat (destruct Hin as [<- | Hin]; [vm_compute; reflexivity|]).
  destruct Hin.
Qed.

(** C5.  [findRelevantInformation] on the table of the sources: the
    definition of the entry whose term equals the topic up to case, if
    there is one; otherwise the definition of the first entry, in table
    order, whose term is contained in the topic or contains it (up to
    case); otherwise the fallback sentence, which quotes the topic and
    offers term and whole life insurance as examples. *)
Theorem C5_findRelevantInformation (topic : string) :
  let kb := KnowledgeBase.new in
  let no_exact :=
    forall x, In x (KnowledgeBase.entries kb) -> eq_ci (term x) topic = false in
  (forall e, In e (KnowledgeBase.entries kb) -> eq_ci (term e) topic = true ->
             KnowledgeBase.findRelevantInformation kb topic = definition e)
  /\
  (no_exact ->
   forall before e after,
     KnowledgeBase.entries kb = (before ++ e :: after)%list ->
     (forall x, In x before -> partial_match topic x = false) ->
     partial_match topic e = true ->
     KnowledgeBase.findRelevantInformation kb topic = definition e)
  /\
  (no_exact ->
   (forall x, In x (KnowledgeBase.entries kb) -> partial_match topic x = false) ->
   KnowledgeBase.findRelevantInformation kb topic
   = "I don't have specific information about " ++ String dquote topic
     ++ String dquote " in my knowledge base. Would you like to know about term life insurance, whole life insurance, or another insurance topic?").
Proof.
  intros kb no_exact. unfold KnowledgeBase.findRelevantInformation.
  split; [|split].
  - intros e Hin Heq. subst kb. simpl KnowledgeBase.entries in *.
    rewrite (exact_match_found topic e Hin Heq). reflexivity.
  - intros Hno before e after Hsplit Hbefore He.
    rewrite (find_absent (KnowledgeBase.is_exact topic)) by exact Hno.
    rewrite Hsplit.
    rewrite (filter_first (KnowledgeBase.is_partial topic) before after e
               Hbefore He).
    reflexivity.
  - intros Hno Hnone.
    rewrite (find_absent (KnowledgeBase.is_exact topic)) by exact Hno.
    rewrite (filter_absent (KnowledgeBase.is_partial topic)) by exact Hnone.
    reflexivity.
Qed.

Lemma C5_witness :
  KnowledgeBase.findRelevantInformation KnowledgeBase.new "PREMIUM"
  = "The amount paid to the insurance company to maintain coverage, which can be paid monthly, quarterly, semi-annually, or annually."
  /\ KnowledgeBase.findRelevantInformation KnowledgeBase.new "Life Insurance"
     = "Insurance that provides coverage for a specific period (term), typically 10, 20, or 30 years, with level premiums and no cash value component."
  /\ KnowledgeBase.findRelevantInformation KnowledgeBase.new "annuity"
     = "I don't have specific information about " ++ String dquote "annuity"
       ++ String dquote " in my knowledge base. Would you like to know about term life insurance, whole life insurance, or another insurance topic?".
Proof.
  assert (no_exact : forall topic,
             forallb (fun x => negb (eq_ci (term x) topic))
                     KnowledgeBase.initial_entries = true ->
             forall x, In x (KnowledgeBase.entries KnowledgeBase.new) ->
                       eq_ci (term x) topic = false).
  { intros topic H x Hx. rewrite forallb_forall in H.
    apply negb_true_iff. apply H. exact Hx. }
  split; [|split].
  - apply (proj1 (C5_findRelevantInformation "PREMIUM")
             (nth 5 KnowledgeBase.initial_entries
                  (nth 0 KnowledgeBase.initial_entries
                       {| term := ""; definition := ""; category := basic;
                          relatedTerms := None |}))).
    + simpl. tauto.
    + vm_compute. reflexivity.
  - apply (proj1 (proj2 (C5_findRelevantInformation "Life Insurance"))
             (no_exact "Life Insurance" eq_refl)
             []
             (nth 0 KnowledgeBase.initial_entries
                  {| term := ""; definition := ""; category := basic;
                     relatedTerms := None |})
             (tl KnowledgeBase.initial_entries)).
    + reflexivity.
    + intros x [].
    + vm_compute. reflexivity.
  - apply (proj2 (proj2 (C5_findRelevantInformation "annuity"))
             (no_exact "annuity" eq_refl)).
    intros x Hx. simpl in Hx.
    repeat (destruct Hx as [<- | Hx]; [vm_compute; reflexivity|]).
    destruct Hx.
Defined.

(** ** The response generator *)

Lemma detailCount_indicators (response : string) :
  ResponseGenerator.detailCount response
  = b2n (includes response "feature") + b2n (includes response "benefit")
    + b2n (includes response "cover") + b2n (includes response "policy")
    + b2n (includes response "premium") + b2n (includes response "underwriting").
Proof.
  unfold ResponseGenerator.detailCount, ResponseGenerator.detailMarkers.
  cbn [filter].
  destruct (includes response "feature"), (includes response "benefit"),
    (includes response "cover"), (includes response "policy"),
    (includes response "premium"), (includes response "underwriting");
    reflexivity.
Qed.

Lemma detailCount_le_6 (response : string) :
  ResponseGenerator.detailCount response <= 6.
Proof.
  unfold ResponseGenerator.detailCount.
  apply (Nat.le_trans _ _ _ (filter_length_le _ _)).
  apply Nat.le_refl.
Qed.

Lemma detail_confidence_range (n : nat) :
  n <= 6 ->
  PrimFloat.leb 0 (detail_confidence n) = true /\
  PrimFloat.leb (detail_confidence n) 1 = true.
Proof.
  intros Hn.
  do 7 (destruct n as [|n]; [vm_compute; split; reflexivity|]).
  lia.
Qed.

(** C6.  The confidence of a response text is 0.5 when it contains the
    no-specific-information text, else 0.3 when it contains an apology
    or trouble phrase, else min(0.7 + 0.05 n, 0.95) in double
    arithmetic, n being how many of feature, benefit, cover, policy,
    premium, underwriting occur in it; and it lies between 0 and 1. *)
Theorem C6_confidence (response : string) :
  let n := b2n (includes response "feature")
           + b2n (includes response "benefit")
           + b2n (includes response "cover")
           + b2n (includes response "policy")
           + b2n (includes response "premium")
           + b2n (includes response "underwriting") in
  let c := ResponseGenerator.calculateConfidence response in
  c = (if includes response "I don't have specific information" then 0.5
       else if includes response "I apologize"
               || includes response "I'm having trouble" then 0.3
       else Math_min (0.7 + float_of_nat n * 0.05) 0.95)%float
  /\ PrimFloat.leb 0 c = true
  /\ PrimFloat.leb c 1 = true.
Proof.
  intros n c. subst n c. unfold ResponseGenerator.calculateConfidence.
  rewrite <- (detailCount_indicators response).
  split; [reflexivity|].
  destruct (includes response "I don't have specific information");
    [split; vm_compute; reflexivity|].
  destruct (includes response "I apologize" ||
            includes response "I'm having trouble");
    [split; vm_compute; reflexivity|].
  apply detail_confidence_range, detailCount_le_6.
Qed.

(** The seven values that the third case takes. *)
Example detail_confidence_values :
  map detail_confidence [0; 1; 2; 3; 4; 5; 6]
  = [0.7; 0.75; 0.7999999999999999; 0.85; 0.8999999999999999; 0.95; 0.95]%float.
Proof. vm_compute. reflexivity. Qed.

(** C7.  Whenever the body of generateResponse throws, whatever the
    error and the input, the result is the fixed apology message with
    the three fixed suggestions and confidence 1 (and no related
    topics): a constant. *)
Theorem C7_error_response (kb : KnowledgeBase.t) (context : ResponseContext)
  (e : Error) :
  ResponseGenerator.generateResponse_try kb context = Throw e ->
  ResponseGenerator.generateResponse kb context = Ok errorResponse.
Proof.
  intros H. unfold ResponseGenerator.generateResponse. rewrite H. reflexivity.
Qed.

Lemma C7_witness :
  ResponseGenerator.generateResponse KnowledgeBase.new context_with_history
  = Ok errorResponse.
Proof.
  apply (C7_error_response KnowledgeBase.new context_with_history
           getAllTerms_error).
  vm_compute. reflexivity.
Defined.

(** A call without conversation history resolves to the formatted
    knowledge-base text. *)
Lemma generateResponse_without_history (kb : KnowledgeBase.t)
  (query : string) (ud : option Context) :
  ResponseGenerator.generateResponse kb
    {| userQuery := query; previousMessages := None; userData := ud |}
  = Ok (ResponseGenerator.formatResponse kb
          (ResponseGenerator.applyPolicyType
             (ResponseGenerator.applyCoverageAmount
                (ResponseGenerator.applyUserData
                   (KnowledgeBase.findRelevantInformation kb
                      (ResponseGenerator.analyzeIntent query)) ud) ud) ud)
          (match ud with Some u => ctx_category u | None => None end)).
Proof. reflexivity. Qed.

(** With a back-reference in the last two previous messages the body of
    generateResponse throws. *)
Lemma back_reference_throws (kb : KnowledgeBase.t) (context : ResponseContext)
  (msgs : list string) :
  previousMessages context = Some msgs ->
  msgs <> [] ->
  ResponseGenerator.referencesTerms (slice_last 2 msgs) = true ->
  ResponseGenerator.generateResponse_try kb context = Throw getAllTerms_error.
Proof.
  intros Hprev Hne Href.
  unfold ResponseGenerator.generateResponse_try,
    ResponseGenerator.applyContext, ResponseGenerator.applyHistory.
  rewrite Hprev.
  destruct msgs as [|m msgs]; [contradiction|].
  cbn [List.length Nat.eqb].
  rewrite Href. reflexivity.
Qed.

(** C2 (the code departs from the claim).  When the previous messages
    are not empty and one of the last two contains this, that, it, these
    or those, the generator calls getAllTerms on the knowledge base; the
    class has no such method, the call throws, and generateResponse
    returns the fixed error response: no "Regarding ..." prefix is ever
    produced. *)
Theorem C2_back_reference_yields_error_response
  (kb : KnowledgeBase.t) (context : ResponseContext) (msgs : list string) :
  previousMessages context = Some msgs ->
  msgs <> [] ->
  existsb (fun msg =>
             existsb (fun ref => includes (toLowerCase msg) ref)
                     ["this"; "that"; "it"; "these"; "those"])
          (slice_last 2 msgs) = true ->
  ResponseGenerator.generateResponse kb context = Ok errorResponse.
Proof.
  intros Hprev Hne Href.
  unfold ResponseGenerator.generateResponse.
  rewrite (back_reference_throws kb context msgs Hprev Hne Href).
  reflexivity.
Qed.

Lemma C2_witness :
  ResponseGenerator.generateResponse KnowledgeBase.new
    {| userQuery := "How much does it cost?";
       previousMessages := Some ["What is a deductible?";
                                 "Tell me more about that premium"];
       userData := None |}
  = Ok errorResponse.
Proof.
  apply (C2_back_reference_yields_error_response KnowledgeBase.new _
           ["What is a deductible?"; "Tell me more about that premium"]).
  - reflexivity.
  - discriminate.
  - vm_compute. reflexivity.
Defined.

(** ** Policy types: the extractor and the policy table *)

Lemma extractPolicyType_values (query : string) :
  InsuranceService.extractPolicyType query = None \/
  InsuranceService.extractPolicyType query = Some "term" \/
  InsuranceService.extractPolicyType query = Some "whole" \/
  InsuranceService.extractPolicyType query = Some "universal" \/
  InsuranceService.extractPolicyType query = Some "variable".
Proof.
  unfold InsuranceService.extractPolicyType.
  destruct (includes (toLowerCase query) "term life"); [tauto|].
  destruct (includes (toLowerCase query) "whole life"); [tauto|].
  destruct (includes (toLowerCase query) "universal life"); [tauto|].
  destruct (includes (toLowerCase query) "variable life"); tauto.
Qed.

Lemma extracted_policy_not_in_table (query : string) (c : QuestionCategory) :
  policyInfo_of (InsuranceService.extractContextFromQuery query c) = None.
Proof.
  unfold policyInfo_of. cbn [InsuranceService.extractContextFromQuery policyType].
  destruct (extractPolicyType_values query) as [H|[H|[H|[H|H]]]];
    rewrite H; reflexivity.
Qed.

(** C10.  The four policy types that the extractor can produce are not
    names of the policy table, so findPolicyType is undefined on each;
    hence, for a context made by the extractor, applyContext leaves the
    response untouched in its policy-type step, and
    enhanceResponseWithKnowledgeBase never appends a policy description:
    it appends the knowledge-base text or nothing. *)
Theorem C10_extracted_policy_type_never_found :
  (findPolicyType "term" = None /\ findPolicyType "whole" = None /\
   findPolicyType "universal" = None /\ findPolicyType "variable" = None)
  /\
  forall (query : string) (c : QuestionCategory),
    let context := InsuranceService.extractContextFromQuery query c in
    (policyType context = None \/ policyType context = Some "term" \/
     policyType context = Some "whole" \/ policyType context = Some "universal" \/
     policyType context = Some "variable")
    /\ (forall response,
          ResponseGenerator.applyPolicyType response (Some context) = response)
    /\ (forall kb aiResponse query' c',
          InsuranceService.enhanceResponseWithKnowledgeBase kb aiResponse query'
            context c'
          = let relevantInfo := KnowledgeBase.findRelevantInformation kb query' in
            if String.eqb relevantInfo "" then aiResponse
            else if negb (includes_ci aiResponse relevantInfo)
                 then aiResponse ++ nl ++ nl ++ "Additional information: "
                      ++ relevantInfo
                 else aiResponse).
Proof.
  split; [repeat split; vm_compute; reflexivity|].
  intros query c context.
  pose proof (extracted_policy_not_in_table query c) as Hinfo.
  fold context in Hinfo. unfold policyInfo_of in Hinfo.
  split; [exact (extractPolicyType_values query)|]. split.
  - intros response. unfold ResponseGenerator.applyPolicyType.
    destruct (truthy_string (policyType context)) as [pt|]; [|reflexivity].
    rewrite Hinfo. reflexivity.
  - intros kb aiResponse query' c'.
    unfold InsuranceService.enhanceResponseWithKnowledgeBase.
    cbv zeta. rewrite Hinfo. reflexivity.
Qed.

(** ** The orchestration service *)

Section ProcessQuery.
Variables ApiKeys ProviderSettings : Type.
Variable config : InsuranceServiceConfig.
Variable kb : KnowledgeBase.t.
Variable llmManager : LLMManager ApiKeys ProviderSettings.
Variable generateResponse : ResponseContext -> Result FormattedResponse.

Let processQuery :=
  InsuranceService.processQuery ApiKeys ProviderSettings config kb llmManager
    generateResponse.
Let ai_response :=
  InsuranceService.ai_response ApiKeys ProviderSettings config kb llmManager.

Lemma processQuery_resolves query modelOverride apiKeys providerSettings :
  exists answer,
    processQuery query modelOverride apiKeys providerSettings = Ok answer.
Proof.
  unfold processQuery, InsuranceService.processQuery, try_catch.
  match goal with
  | |- exists a, match ?body with Ok x => _ | Throw _ => _ end = _ =>
      destruct body as [x|e]
  end; eexists; reflexivity.
Qed.

(** When the AI path throws, the answer is whatever the response
    generator gives for the same query and the extracted context. *)
Lemma processQuery_fallback query modelOverride apiKeys providerSettings e :
  let category := InsuranceService.categorizeQuestion query in
  let context := InsuranceService.extractContextFromQuery query category in
  ai_response query context category modelOverride apiKeys providerSettings
  = Throw e ->
  processQuery query modelOverride apiKeys providerSettings
  = try_catch
      (InsuranceService.from_knowledge_base generateResponse query context)
      (fun _ => Ok InsuranceService.apology).
Proof.
  intros category context Hai.
  unfold processQuery, InsuranceService.processQuery.
  fold category. fold context. unfold ai_response in Hai. rewrite Hai.
  destruct (InsuranceService.ai_enabled config modelOverride); reflexivity.
Qed.

(** A model that was obtained and whose [complete] rejects makes the
    AI path throw. *)
Lemma rejected_completion_throws query context category modelOverride
  apiKeys providerSettings mdl e :
  InsuranceService.getLanguageModel ApiKeys ProviderSettings llmManager
    (match truthy_string modelOverride with
     | Some m => m
     | None => model config
     end) apiKeys providerSettings = Ok mdl ->
  complete mdl
    {| prompt := InsuranceService.generateInsurancePrompt query context;
       req_temperature := temperature config;
       req_maxTokens := maxTokens config |} = Throw e ->
  ai_response query context category modelOverride apiKeys providerSettings
  = Throw e.
Proof.
  intros Hmodel Hreject. unfold ai_response, InsuranceService.ai_response.
  rewrite Hmodel. cbn [bind]. rewrite Hreject. reflexivity.
Qed.

End ProcessQuery.

(** C9.  processQuery always resolves to a string, whatever the query,
    the model override, the keys and settings, the configuration, the
    behaviour of the model provider and of the response generator; and
    when the AI path throws and the response generator rejects as well,
    it resolves to the fixed sentence that starts "Sorry, I'm having
    trouble answering that question about insurance." *)
Theorem C9_processQuery_never_rejects
  (ApiKeys ProviderSettings : Type) (config : InsuranceServiceConfig)
  (kb : KnowledgeBase.t) (llmManager : LLMManager ApiKeys ProviderSettings)
  (generateResponse : ResponseContext -> Result FormattedResponse)
  (query : string) (modelOverride : option string)
  (apiKeys : option ApiKeys) (providerSettings : option ProviderSettings) :
  let processQuery :=
    InsuranceService.processQuery ApiKeys ProviderSettings config kb llmManager
      generateResponse query modelOverride apiKeys providerSettings in
  let category := InsuranceService.categorizeQuestion query in
  let context := InsuranceService.extractContextFromQuery query category in
  (exists answer, processQuery = Ok answer)
  /\
  (forall e1 e2,
      InsuranceService.ai_response ApiKeys ProviderSettings config kb llmManager
        query context category modelOverride apiKeys providerSettings
      = Throw e1 ->
      generateResponse {| userQuery := query; previousMessages := None;
                          userData := Some context |} = Throw e2 ->
      processQuery
      = Ok "Sorry, I'm having trouble answering that question about insurance. Please try rephrasing it or ask something else.").
Proof.
  intros processQuery category context. split.
  - apply processQuery_resolves.
  - intros e1 e2 Hai Hrg. subst processQuery.
    rewrite (processQuery_fallback _ _ _ _ _ _ _ _ _ _ e1 Hai).
    unfold InsuranceService.from_knowledge_base.
    fold category. fold context. rewrite Hrg. reflexivity.
Qed.

Lemma C9_witness :
  InsuranceService.processQuery unit unit DEFAULT_INSURANCE_CONFIG
    KnowledgeBase.new rejecting_manager rejecting_generator
    "What is term life insurance?" None None None
  = Ok "Sorry, I'm having trouble answering that question about insurance. Please try rephrasing it or ask something else.".
Proof.
  apply (proj2 (C9_processQuery_never_rejects unit unit DEFAULT_INSURANCE_CONFIG
                  KnowledgeBase.new rejecting_manager rejecting_generator
                  "What is term life insurance?" None None None)
           (OtherError "429 rate limit exceeded")
           (OtherError "generator unavailable")).
  - vm_compute. reflexivity.
  - reflexivity.
Defined.

(** ** The chat hook *)

Section RealService.
Variables ApiKeys ProviderSettings : Type.
Variable config : InsuranceServiceConfig.
Variable llmManager : LLMManager ApiKeys ProviderSettings.
Variable apiKeys : option ApiKeys.
Variable providerSettings : option ProviderSettings.

Let svc := service_of config llmManager apiKeys providerSettings.

(** With the service of the sources the awaited calls of a turn never
    throw: they end with the reply of [processQuery]. *)
Lemma real_service_replies (text : string) (st : State) :
  exists response,
    InsuranceService.processQuery ApiKeys ProviderSettings config
      KnowledgeBase.new llmManager
      (ResponseGenerator.generateResponse KnowledgeBase.new)
      text (modelOverride st) apiKeys providerSettings = Ok response
    /\ snd (await_service svc text st)
       = Ok (InsuranceService.categorizeQuestion text, response,
             InsuranceService.generateFollowUpQuestions KnowledgeBase.new
               (InsuranceService.categorizeQuestion text) text).
Proof.
  destruct (processQuery_resolves ApiKeys ProviderSettings config
              KnowledgeBase.new llmManager
              (ResponseGenerator.generateResponse KnowledgeBase.new)
              text (modelOverride st) apiKeys providerSettings)
    as [response Hresp].
  exists response. split; [exact Hresp|].
  unfold await_service, svc, service_of.
  cbn [svc_categorizeQuestion svc_extractContextFromQuery svc_processQuery
       svc_generateFollowUpQuestions snd].
  rewrite Hresp. reflexivity.
Qed.

End RealService.

(** A turn that ends with a reply: the user message and then the
    assistant message are appended, and no error is set. *)
Lemma sendMessage_replied (svc : Service) (text : string) (st : State)
  (category : QuestionCategory) (response : string) (followUps : list string) :
  snd (await_service svc text (send_begin text st))
  = Ok (category, response, followUps) ->
  messages (sendMessage svc text st)
  = (messages st
       ++ [userMessage text; assistantMessage response category followUps])%list
  /\ error (sendMessage svc text st) = None
  /\ isLoading (sendMessage svc text st) = false.
Proof.
  intros H. unfold sendMessage, send_end. rewrite H.
  cbn [messages error isLoading send_begin]. rewrite <- app_assoc.
  repeat split; reflexivity.
Qed.

(** A failed turn: the user message stays, the error is set, nothing
    else is appended. *)
Lemma sendMessage_failed (svc : Service) (text : string) (st : State) (e : Error) :
  snd (await_service svc text (send_begin text st)) = Throw e ->
  messages (sendMessage svc text st) = (messages st ++ [userMessage text])%list
  /\ error (sendMessage svc text st) = Some e
  /\ isLoading (sendMessage svc text st) = false.
Proof.
  intros H. unfold sendMessage, send_end. rewrite H.
  repeat split; reflexivity.
Qed.

(** C4.  When the AI path is taken, a model is obtained and its
    completion call rejects, processQuery resolves with the message that
    the response generator gives for the same query and the extracted
    context; in the hook the turn then ends with the error still null
    and with the user message followed by an assistant message carrying
    that text. *)
Theorem C4_model_rejection_falls_back
  (ApiKeys ProviderSettings : Type) (config : InsuranceServiceConfig)
  (llmManager : LLMManager ApiKeys ProviderSettings)
  (apiKeys : option ApiKeys) (providerSettings : option ProviderSettings)
  (query : string) (st : State) (mdl : LanguageModel) (e : Error) :
  let kb := KnowledgeBase.new in
  let category := InsuranceService.categorizeQuestion query in
  let context := InsuranceService.extractContextFromQuery query category in
  InsuranceService.ai_enabled config (modelOverride st) = true ->
  InsuranceService.getLanguageModel ApiKeys ProviderSettings llmManager
    (match truthy_string (modelOverride st) with
     | Some m => m
     | None => model config
     end) apiKeys providerSettings = Ok mdl ->
  complete mdl
    {| prompt := InsuranceService.generateInsurancePrompt query context;
       req_temperature := temperature config;
       req_maxTokens := maxTokens config |} = Throw e ->
  exists r,
    ResponseGenerator.generateResponse kb
      {| userQuery := query; previousMessages := None;
         userData := Some context |} = Ok r
    /\ InsuranceService.processQuery ApiKeys ProviderSettings config kb
         llmManager (ResponseGenerator.generateResponse kb)
         query (modelOverride st) apiKeys providerSettings
       = Ok (message r)
    /\ let st' :=
         sendMessage (service_of config llmManager apiKeys providerSettings)
           query st in
       error st' = None
       /\ messages st'
          = (messages st
               ++ [userMessage query;
                   assistantMessage (message r) category
                     (InsuranceService.generateFollowUpQuestions kb category
                        query)])%list.
Proof.
  intros kb category context Hai Hmodel Hreject.
  rewrite generateResponse_without_history.
  eexists. split; [reflexivity|].
  assert (Hreply :
            InsuranceService.processQuery ApiKeys ProviderSettings config kb
              llmManager (ResponseGenerator.generateResponse kb)
              query (modelOverride st) apiKeys providerSettings
            = Ok (message
                    (ResponseGenerator.formatResponse kb
                       (ResponseGenerator.applyPolicyType
                          (ResponseGenerator.applyCoverageAmount
                             (ResponseGenerator.applyUserData
                                (KnowledgeBase.findRelevantInformation kb
                                   (ResponseGenerator.analyzeIntent query))
                                (Some context)) (Some context)) (Some context))
                       (ctx_category context)))).
  { rewrite (processQuery_fallback _ _ _ _ _ _ _ _ _ _ e
               (rejected_completion_throws _ _ _ _ _ _ _ _ _ _ _ _ _
                  Hmodel Hreject)).
    unfold InsuranceService.from_knowledge_base.
    fold category. fold context.
    rewrite generateResponse_without_history. reflexivity. }
  split; [exact Hreply|].
  destruct (real_service_replies ApiKeys ProviderSettings config llmManager
              apiKeys providerSettings query (send_begin query st))
    as [response [Hresp Hawait]].
  cbn [send_begin modelOverride] in Hresp. fold kb in Hresp.
  rewrite Hreply in Hresp. injection Hresp as <-.
  destruct (sendMessage_replied _ _ _ _ _ _ Hawait) as [Hm [He _]].
  cbv zeta. split; [exact He | exact Hm].
Qed.

Lemma C4_witness :
  exists r,
    ResponseGenerator.generateResponse KnowledgeBase.new
      {| userQuery := "What is term life insurance?"; previousMessages := None;
         userData :=
           Some (InsuranceService.extractContextFromQuery
                   "What is term life insurance?" policy) |} = Ok r
    /\ InsuranceService.processQuery unit unit DEFAULT_INSURANCE_CONFIG
         KnowledgeBase.new rejecting_manager
         (ResponseGenerator.generateResponse KnowledgeBase.new)
         "What is term life insurance?" None None None
       = Ok (message r)
    /\ error (sendMessage
                (service_of DEFAULT_INSURANCE_CONFIG rejecting_manager None None)
                "What is term life insurance?" fresh_session) = None
    /\ map role
         (messages
            (sendMessage
               (service_of DEFAULT_INSURANCE_CONFIG rejecting_manager None None)
               "What is term life insurance?" fresh_session))
       = [user; assistant].
Proof.
  destruct (C4_model_rejection_falls_back unit unit DEFAULT_INSURANCE_CONFIG
              rejecting_manager None None "What is term life insurance?"
              fresh_session rejecting_model
              (OtherError "429 rate limit exceeded")
              eq_refl eq_refl eq_refl)
    as [r [Hr [Hq [He Hm]]]].
  exists r. split; [exact Hr|]. split; [exact Hq|]. split; [exact He|].
  rewrite Hm. reflexivity.
Defined.

Lemma even_after_two {A} (l : list A) (x y : A) :
  Nat.even (List.length l) = true ->
  Nat.even (List.length (l ++ [x; y])%list) = true.
Proof.
  intros H. rewrite length_app. cbn [List.length].
  rewrite Nat.even_add, H. reflexivity.
Qed.

Lemma odd_after_one {A} (l : list A) (x : A) :
  Nat.even (List.length l) = true ->
  Nat.odd (List.length (l ++ [x])%list) = true.
Proof.
  intros H. rewrite length_app. cbn [List.length].
  rewrite Nat.odd_add, <- Nat.negb_even, H. reflexivity.
Qed.

Section Sessions.
Variables ApiKeys ProviderSettings : Type.
Variable config : InsuranceServiceConfig.
Variable llmManager : LLMManager ApiKeys ProviderSettings.
Variable apiKeys : option ApiKeys.
Variable providerSettings : option ProviderSettings.
Variable initialMessages : list InsuranceMessage.
Variable persistMessages : bool.
Variable saved : option (list InsuranceMessage).

Hypothesis initial_even : Nat.even (List.length initialMessages) = true.
Hypothesis saved_even :
  forall parsed, saved = Some parsed ->
                 Nat.even (List.length parsed) = true.

Let svc := service_of config llmManager apiKeys providerSettings.

(** Between turns the transcript has even length, no error is pending
    and nothing is loading. *)
Lemma between_turns (st : State) :
  reachable initialMessages persistMessages svc saved st ->
  Nat.even (List.length (messages st)) = true
  /\ error st = None
  /\ isLoading st = false.
Proof.
  induction 1 as [|a st Hreach [IHeven [IHerr IHload]]].
  - split; [|split; reflexivity]. unfold mount. cbn [messages].
    destruct persistMessages; [|exact initial_even].
    destruct saved as [parsed|] eqn:Hsaved; [|exact initial_even].
    apply saved_even. reflexivity.
  - destruct a as [text| |modelName]; cbn [perform].
    + destruct (real_service_replies ApiKeys ProviderSettings config
                  llmManager apiKeys providerSettings text
                  (send_begin text st)) as [response [_ Hawait]].
      fold svc in Hawait.
      destruct (sendMessage_replied _ _ _ _ _ _ Hawait) as [Hm [He Hl]].
      rewrite Hm. split; [apply even_after_two; exact IHeven|].
      split; assumption.
    + split; [exact initial_even|]. split; [reflexivity | exact IHload].
    + split; [exact IHeven|]. split; [exact IHerr | exact IHload].
Qed.

End Sessions.

(** C8, amended.  With turns taken one at a time:
    - whatever the service, a turn that starts on a list of even length
      has a list of odd length while it is in flight; if it ends with a
      reply, exactly the user message and then one assistant message
      were appended, the length is even and no error is set; if it
      fails, the length is odd, the error is set and only the user
      message was appended;
    - over the service of the sources, from message lists of even length
      (the initialMessages option and what local storage held), every
      state between turns has a list of even length, no error and
      nothing loading, and every turn ends with a reply. *)
Theorem C8_transcript_parity :
  (forall (svc : Service) (st : State) (text : string),
      Nat.even (List.length (messages st)) = true ->
      let st' := sendMessage svc text st in
      (Nat.odd (List.length (messages (send_begin text st))) = true
       /\ isLoading (send_begin text st) = true)
      /\ (forall category response followUps,
             snd (await_service svc text (send_begin text st))
             = Ok (category, response, followUps) ->
             messages st'
             = (messages st
                  ++ [userMessage text;
                      assistantMessage response category followUps])%list
             /\ Nat.even (List.length (messages st')) = true
             /\ error st' = None)
      /\ (forall e,
             snd (await_service svc text (send_begin text st)) = Throw e ->
             messages st' = (messages st ++ [userMessage text])%list
             /\ Nat.odd (List.length (messages st')) = true
             /\ error st' = Some e))
  /\
  (forall (ApiKeys ProviderSettings : Type) (config : InsuranceServiceConfig)
          (llmManager : LLMManager ApiKeys ProviderSettings)
          (apiKeys : option ApiKeys) (providerSettings : option ProviderSettings)
          (initialMessages : list InsuranceMessage) (persistMessages : bool)
          (saved : option (list InsuranceMessage)),
      Nat.even (List.length initialMessages) = true ->
      (forall parsed, saved = Some parsed ->
                      Nat.even (List.length parsed) = true) ->
      let real := service_of config llmManager apiKeys providerSettings in
      forall st,
        reachable initialMessages persistMessages real saved st ->
        Nat.even (List.length (messages st)) = true
        /\ error st = None
        /\ isLoading st = false
        /\ forall text, exists category response followUps,
             snd (await_service real text (send_begin text st))
             = Ok (category, response, followUps)).
Proof.
  split.
  - intros svc st text Heven st'. subst st'. split; [|split].
    + split; [apply odd_after_one; exact Heven | reflexivity].
    + intros category response followUps Hok.
      destruct (sendMessage_replied _ _ _ _ _ _ Hok) as [Hm [He _]].
      rewrite Hm. split; [reflexivity|].
      split; [apply even_after_two; exact Heven | exact He].
    + intros e Hfail.
      destruct (sendMessage_failed _ _ _ _ Hfail) as [Hm [He _]].
      rewrite Hm. split; [reflexivity|].
      split; [apply odd_after_one; exact Heven | exact He].
  - intros ApiKeys ProviderSettings config llmManager apiKeys providerSettings
      initialMessages persistMessages saved Hinit Hsaved real st Hreach.
    destruct (between_turns ApiKeys ProviderSettings config llmManager apiKeys
                providerSettings initialMessages persistMessages saved
                Hinit Hsaved st Hreach) as [Heven [Herr Hload]].
    repeat (split; [assumption|]).
    intros text.
    destruct (real_service_replies ApiKeys ProviderSettings config llmManager
                apiKeys providerSettings text (send_begin text st))
      as [response [_ Hawait]].
    eexists _, response, _. exact Hawait.
Qed.

Lemma C8_witness :
  (let st := sendMessage failing_service "error" fresh_session in
   messages st = [userMessage "error"]
   /\ Nat.odd (List.length (messages st)) = true
   /\ error st = Some (OtherError "Mock error"))
  /\
  (let st := sendMessage flaky_service "Hello" fresh_session in
   messages st
   = [userMessage "Hello";
      assistantMessage "I can help you with insurance questions." basic
        (InsuranceService.generateFollowUpQuestions KnowledgeBase.new basic
           "Hello")]
   /\ Nat.even (List.length (messages st)) = true
   /\ error st = None)
  /\
  (let st := sendMessage offline_service "Hello" fresh_session in
   Nat.even (List.length (messages st)) = true
   /\ error st = None
   /\ isLoading st = false
   /\ exists category response followUps,
        snd (await_service offline_service "What is a premium?"
               (send_begin "What is a premium?" st))
        = Ok (category, response, followUps)).
Proof.
  destruct C8_transcript_parity as [Hturn Hsession].
  split; [|split].
  - destruct (Hturn failing_service fresh_session "error" eq_refl)
      as [_ [_ Hfail]].
    apply (Hfail (OtherError "Mock error")). reflexivity.
  - destruct (Hturn flaky_service fresh_session "Hello" eq_refl)
      as [_ [Hreply _]].
    apply (Hreply basic "I can help you with insurance questions."
             (InsuranceService.generateFollowUpQuestions KnowledgeBase.new
                basic "Hello")).
    reflexivity.
  - destruct (Hsession unit unit DEFAULT_INSURANCE_CONFIG rejecting_manager
                None None [] true None eq_refl
                (fun parsed H =>
                   match H in (_ = o)
                         return (match o with
                                 | Some _ =>
                                     Nat.even (List.length parsed) = true
                                 | None => True
                                 end) with
                   | eq_refl => I
                   end)
                (sendMessage offline_service "Hello" fresh_session)
                (reach_step [] true offline_service None (Send "Hello")
                   fresh_session (reach_mount [] true offline_service None)))
      as [Heven [Herr [Hload Hnext]]].
    cbv zeta. repeat (split; [assumption|]). apply Hnext.
Defined.

(** C8 as stated fails on two counts.
    - Nothing in the hook keeps a second sendMessage from starting while
      the first still awaits its reply (loading is only a flag for the
      user interface): after two such calls on a fresh session both
      turns are in flight and the list holds the two user messages, an
      even length.
    - The user message of a failed turn stays in the list, so the turn
      after it starts on an odd length and ends, replied, on an odd
      length: user, user, assistant.  (This takes a service that
      rejects, as the hook's catch block provides for; the service of
      the sources never does.) *)
Lemma C8_parity_is_not_invariant :
  (let st := send_begin "What about whole life?"
               (send_begin "What is term life insurance?" fresh_session) in
   isLoading st = true
   /\ map role (messages st) = [user; user]
   /\ Nat.odd (List.length (messages st)) = false)
  /\
  (let st := sendMessage flaky_service "Hello again"
               (sendMessage flaky_service "error" fresh_session) in
   error st = None
   /\ map role (messages st) = [user; user; assistant]
   /\ Nat.even (List.length (messages st)) = false).
Proof. vm_compute. repeat split; reflexivity. Qed.

(* ================================================================== *)
(** * Further properties *)
(* ================================================================== *)

(** ** Substrings *)

Lemma prefix_app (p s : string) :
  String.prefix p s = true <-> exists post, s = p ++ post.
Proof.
  revert s. induction p as [|a p IH]; intros s.
  - destruct s; simpl; (split; [intros _; eexists; reflexivity | reflexivity]).
  - destruct s as [|b s]; simpl.
    + split; [discriminate | intros [post H]; discriminate].
    + destruct (Ascii.ascii_dec a b) as [->|Hab].
      * rewrite IH. split; intros [post H]; exists post.
        -- rewrite H. reflexivity.
        -- injection H as H. exact H.
      * split; [discriminate|].
        intros [post H]. injection H as H1 H2. congruence.
Qed.

Lemma string_app_assoc (a b c : string) : (a ++ b) ++ c = a ++ b ++ c.
Proof. induction a as [|x a IH]; simpl; [reflexivity | rewrite IH; reflexivity]. Qed.

Lemma string_app_nil_r (a : string) : a ++ "" = a.
Proof. induction a as [|x a IH]; simpl; [reflexivity | rewrite IH; reflexivity]. Qed.

(** [includes] is the substring relation. *)
Lemma includes_app (s sub : string) :
  includes s sub = true <-> exists pre post, s = pre ++ sub ++ post.
Proof.
  induction s as [|a s IH].
  - cbn [includes]. rewrite orb_false_r, prefix_app. split.
    + intros [post H]. exists "", post. exact H.
    + intros [pre [post H]]. destruct pre; simpl in H.
      * exists post. exact H.
      * discriminate.
  - cbn [includes]. rewrite orb_true_iff, prefix_app, IH. split.
    + intros [[post H] | [pre [post H]]].
      * exists "", post. exact H.
      * exists (String a pre), post. simpl. rewrite H. reflexivity.
    + intros [pre [post H]]. destruct pre as [|b pre]; simpl in H.
      * left. exists post. exact H.
      * right. injection H as _ H. exists pre, post. exact H.
Qed.

Lemma includes_refl (s : string) : includes s s = true.
Proof. apply includes_app. exists "", "". simpl. rewrite string_app_nil_r. reflexivity. Qed.

Lemma includes_empty (s : string) : includes s "" = true.
Proof. apply includes_app. exists "", s. reflexivity. Qed.

Lemma includes_trans (a b c : string) :
  includes a b = true -> includes b c = true -> includes a c = true.
Proof.
  rewrite !includes_app. intros [p1 [q1 H1]] [p2 [q2 H2]].
  exists (p1 ++ p2), (q2 ++ q1). rewrite H1, H2.
  rewrite !string_app_assoc. reflexivity.
Qed.

Lemma toLowerCase_app (a b : string) :
  toLowerCase (a ++ b) = toLowerCase a ++ toLowerCase b.
Proof. induction a as [|x a IH]; simpl; [reflexivity | rewrite IH; reflexivity]. Qed.

Lemma includes_toLowerCase (a b : string) :
  includes a b = true -> includes (toLowerCase a) (toLowerCase b) = true.
Proof.
  rewrite !includes_app. intros [pre [post H]].
  exists (toLowerCase pre), (toLowerCase post).
  rewrite H, !toLowerCase_app. reflexivity.
Qed.

Lemma includes_ci_trans (a b c : string) :
  includes_ci a b = true -> includes_ci b c = true -> includes_ci a c = true.
Proof. unfold includes_ci. apply includes_trans. Qed.

(** ** The knowledge base: suggestions, topics, search *)

Lemma filter_head_in {A} (p : A -> bool) (l : list A) (x : A) (rest : list A) :
  filter p l = x :: rest -> In x l /\ p x = true.
Proof.
  intros H. apply filter_In. rewrite H. left. reflexivity.
Qed.

(** X1.  Whatever the table and the context, getSuggestedQuestions and
    getRelatedTopics return at most three items; over the table of the
    sources getSuggestedQuestions returns exactly three questions and
    getRelatedTopics none or three topics. *)
Theorem X1_suggestions_and_topics_bounded :
  (forall (kb : KnowledgeBase.t) (context : string),
      List.length (KnowledgeBase.getSuggestedQuestions kb context) <= 3
      /\ List.length (KnowledgeBase.getRelatedTopics kb context) <= 3)
  /\
  (forall context : string,
      List.length (KnowledgeBase.getSuggestedQuestions KnowledgeBase.new context)
      = 3
      /\ (KnowledgeBase.getRelatedTopics KnowledgeBase.new context = []
          \/ List.length
               (KnowledgeBase.getRelatedTopics KnowledgeBase.new context) = 3)).
Proof.
  split.
  - intros kb context.
    unfold KnowledgeBase.getSuggestedQuestions, KnowledgeBase.getRelatedTopics,
      slice0.
    destruct (filter (KnowledgeBase.mentioned_in context) (KnowledgeBase.entries kb))
      as [|first rest].
    + split; simpl; lia.
    + split; apply firstn_le_length.
  - intros context.
    unfold KnowledgeBase.getSuggestedQuestions, KnowledgeBase.getRelatedTopics.
    destruct (filter (KnowledgeBase.mentioned_in context)
                (KnowledgeBase.entries KnowledgeBase.new))
      as [|first rest] eqn:Hf.
    + split; [reflexivity | left; reflexivity].
    + destruct (filter_head_in _ _ _ _ Hf) as [Hin _]. simpl in Hin.
      repeat (destruct Hin as [<- | Hin];
              [split; [reflexivity | right; reflexivity]|]).
      destruct Hin.
Qed.

(** X2.  A longer query never finds more: if q1 occurs in q2 (ignoring
    case), every entry that search returns for q2 is also returned for
    q1. *)
Theorem X2_search_narrows (kb : KnowledgeBase.t) (q1 q2 : string) :
  includes_ci q2 q1 = true ->
  forall e, In e (KnowledgeBase.search kb q2) -> In e (KnowledgeBase.search kb q1).
Proof.
  intros Hsub e. unfold KnowledgeBase.search. rewrite !filter_In.
  intros [Hin Hmatch]. split; [exact Hin|].
  unfold includes_ci in Hsub.
  rewrite !orb_true_iff in *.
  destruct Hmatch as [[H|H]|H].
  - left. left. exact (includes_trans _ _ _ H Hsub).
  - left. right. exact (includes_trans _ _ _ H Hsub).
  - right. apply existsb_exists in H. destruct H as [tm [Htm H]].
    apply existsb_exists. exists tm. split; [exact Htm|].
    exact (includes_trans _ _ _ H Hsub).
Qed.

Lemma X2_witness :
  let whole :=
    {| term := "whole life insurance";
       definition := "Permanent life insurance that provides coverage for your entire life, includes a cash value component, and typically has fixed premiums.";
       category := basic;
       relatedTerms := Some ["term life insurance"; "cash value"; "permanent insurance"] |} in
  includes_ci "Whole Life" "life" = true
  /\ In whole (KnowledgeBase.search KnowledgeBase.new "Whole Life")
  /\ In whole (KnowledgeBase.search KnowledgeBase.new "life").
Proof.
  intros whole.
  assert (Hsub : includes_ci "Whole Life" "life" = true) by reflexivity.
  assert (Hin : In whole (KnowledgeBase.search KnowledgeBase.new "Whole Life"))
    by (vm_compute; right; left; reflexivity).
  split; [exact Hsub|]. split; [exact Hin|].
  exact (X2_search_narrows KnowledgeBase.new "life" "Whole Life" Hsub whole Hin).
Defined.

Lemma toLowerCase_empty (s : string) : toLowerCase s = "" -> s = "".
Proof. destruct s; simpl; [reflexivity | discriminate]. Qed.

(** X3.  The empty string matches everything: search returns the whole
    table, and findRelevantInformation, on a table that starts with an
    entry and has no entry with an empty term, returns the definition of
    the first entry rather than the fallback sentence. *)
Theorem X3_empty_query (kb : KnowledgeBase.t) :
  KnowledgeBase.search kb "" = KnowledgeBase.entries kb
  /\ forall first rest,
       KnowledgeBase.entries kb = first :: rest ->
       (forall x, In x (KnowledgeBase.entries kb) -> term x <> "") ->
       KnowledgeBase.findRelevantInformation kb "" = definition first.
Proof.
  split.
  - unfold KnowledgeBase.search.
    assert (H : forall l : list KnowledgeBaseEntry,
               filter (fun entry =>
                         includes (toLowerCase (term entry)) (toLowerCase "") ||
                         includes (toLowerCase (definition entry)) (toLowerCase "") ||
                         existsb (fun tm => includes (toLowerCase tm) (toLowerCase ""))
                                 (or_empty (relatedTerms entry))) l = l).
    { induction l as [|x l IH]; [reflexivity|].
      cbn [filter].
      assert (E : includes (toLowerCase (term x)) (toLowerCase "") = true)
        by apply includes_empty.
      rewrite E. cbn [orb]. rewrite IH. reflexivity. }
    apply H.
  - intros first rest Hentries Hterms.
    unfold KnowledgeBase.findRelevantInformation.
    rewrite (find_absent (KnowledgeBase.is_exact "")).
    + rewrite Hentries. cbn [filter].
      assert (E : KnowledgeBase.is_partial "" first = true).
      { unfold KnowledgeBase.is_partial. apply orb_true_iff. right.
        apply includes_empty. }
      rewrite E. reflexivity.
    + intros x Hx. unfold KnowledgeBase.is_exact.
      apply String.eqb_neq. intros H. apply (Hterms x Hx).
      apply toLowerCase_empty. exact H.
Qed.

Lemma X3_witness :
  KnowledgeBase.findRelevantInformation KnowledgeBase.new ""
  = "Insurance that provides coverage for a specific period (term), typically 10, 20, or 30 years, with level premiums and no cash value component.".
Proof.
  apply (proj2 (X3_empty_query KnowledgeBase.new)
           (nth 0 KnowledgeBase.initial_entries
                {| term := ""; definition := ""; category := basic;
                   relatedTerms := None |})
           (tl KnowledgeBase.initial_entries)).
  - reflexivity.
  - intros x Hx. simpl in Hx.
    repeat (destruct Hx as [<- | Hx]; [discriminate|]).
    destruct Hx.
Defined.

(** ** The two lookup tables *)

Lemma findTerm_found (s : string) (d : InsuranceDefinition) :
  In d insuranceTerms -> eq_ci (idef_term d) s = true -> findTerm s = Some d.
Proof.
  intros Hin Heq. apply String.eqb_eq in Heq.
  unfold findTerm. rewrite <- Heq. clear Heq. simpl in Hin.
  repeat (destruct Hin as [<- | Hin]; [vm_compute; reflexivity|]).
  destruct Hin.
Qed.

Lemma findPolicyType_found (s : string) (p : PolicyType) :
  In p policyTypes -> eq_ci (name p) s = true -> findPolicyType s = Some p.
Proof.
  intros Hin Heq. apply String.eqb_eq in Heq.
  unfold findPolicyType. rewrite <- Heq. clear Heq. simpl in Hin.
  repeat (destruct Hin as [<- | Hin]; [vm_compute; reflexivity|]).
  destruct Hin.
Qed.

(** X4.  findTerm and findPolicyType are exact lookups up to case: they
    return an entry of their table precisely when its term (its name)
    equals the argument ignoring case; getTermDefinition and
    getPolicyInformation of the service return that entry's definition
    (that entry), and null otherwise. *)
Theorem X4_lookups_up_to_case (s : string) :
  (forall d, findTerm s = Some d
             <-> In d insuranceTerms /\ eq_ci (idef_term d) s = true)
  /\ (forall p, findPolicyType s = Some p
                <-> In p policyTypes /\ eq_ci (name p) s = true)
  /\ (forall text, getTermDefinition s = Some text
                   <-> exists d, In d insuranceTerms
                                 /\ eq_ci (idef_term d) s = true
                                 /\ idef_definition d = text)
  /\ (forall p, getPolicyInformation s = Some p
                <-> In p policyTypes /\ eq_ci (name p) s = true).
Proof.
  assert (Hterm : forall d, findTerm s = Some d
                            <-> In d insuranceTerms /\ eq_ci (idef_term d) s = true).
  { intros d. split.
    - intros H. apply find_some in H. exact H.
    - intros [Hin Heq]. apply findTerm_found; assumption. }
  assert (Hpolicy : forall p, findPolicyType s = Some p
                              <-> In p policyTypes /\ eq_ci (name p) s = true).
  { intros p. split.
    - intros H. apply find_some in H. exact H.
    - intros [Hin Heq]. apply findPolicyType_found; assumption. }
  split; [exact Hterm|]. split; [exact Hpolicy|]. split; [|exact Hpolicy].
  intros text. unfold getTermDefinition. split.
  - destruct (findTerm s) as [d|] eqn:Hd; [|discriminate].
    intros H. injection H as <-. exists d.
    destruct (proj1 (Hterm d) eq_refl) as [Hin Heq]. repeat split; assumption.
  - intros [d [Hin [Heq Hdef]]].
    rewrite (proj2 (Hterm d) (conj Hin Heq)), Hdef. reflexivity.
Qed.

Lemma X4_witness :
  getTermDefinition "CASH VALUE"
  = Some "The savings component of permanent life insurance policies"
  /\ getTermDefinition "term life insurance" = None.
Proof.
  split.
  - apply (proj1 (proj2 (proj2 (X4_lookups_up_to_case "CASH VALUE")))).
    exists (nth 4 insuranceTerms
                {| idef_term := ""; idef_definition := ""; idef_category := "" |}).
    split; [simpl; tauto | split; vm_compute; reflexivity].
  - destruct (getTermDefinition "term life insurance") as [text|] eqn:H;
      [|reflexivity].
    apply (proj1 (proj2 (proj2 (X4_lookups_up_to_case "term life insurance"))))
      in H.
    destruct H as [d [Hin [Heq _]]]. simpl in Hin.
    repeat (destruct Hin as [<- | Hin]; [vm_compute in Heq; discriminate|]).
    destruct Hin.
Defined.

(** ** The generator on the table of the sources *)

Lemma analyzeIntent_cases (query : string) :
  In (ResponseGenerator.analyzeIntent query) intents.
Proof.
  unfold ResponseGenerator.analyzeIntent, intents.
  repeat match goal with
         | |- context [if ?c then _ else _] => destruct c
         end; simpl; tauto.
Qed.

Lemma fold_left_fixed {A B} (f : A -> B -> A) (l : list B) (a : A) :
  (forall b, In b l -> f a b = a) -> fold_left f l a = a.
Proof.
  induction l as [|b l IH]; intros H; simpl; [reflexivity|].
  rewrite (H b (or_introl eq_refl)). apply IH.
  intros b' Hb'. apply H. right. exact Hb'.
Qed.

Lemma object_entries_keys (ud : Context) (kv : string * string) :
  In kv (ResponseGenerator.object_entries ud) -> In (fst kv) context_keys.
Proof.
  unfold ResponseGenerator.object_entries, ResponseGenerator.entry, context_keys.
  destruct ud as [c p a g h]. cbn [ctx_category policyType coverageAmount age healthStatus].
  destruct c, p, a, g, h; simpl; intros H;
    repeat (destruct H as [<- | H]; [simpl; tauto|]); destruct H.
Qed.

(** The fallback sentences hold no placeholder. *)
Lemma no_placeholder_in_fallback (i key value : string) :
  In i intents -> In key context_keys ->
  replace_all (ResponseGenerator.placeholder key) value
    (KnowledgeBase.no_information i)
  = KnowledgeBase.no_information i.
Proof.
  intros Hi Hkey. simpl in Hi, Hkey.
  repeat (destruct Hi as [<- | Hi];
          [repeat (destruct Hkey as [<- | Hkey]; [vm_compute; reflexivity|]);
           destruct Hkey|]).
  destruct Hi.
Qed.

Lemma applyUserData_fallback (i : string) (ud : option Context) :
  In i intents ->
  ResponseGenerator.applyUserData (KnowledgeBase.no_information i) ud
  = KnowledgeBase.no_information i.
Proof.
  intros Hi. unfold ResponseGenerator.applyUserData.
  destruct ud as [ud|]; [|reflexivity].
  apply fold_left_fixed. intros kv Hkv.
  apply no_placeholder_in_fallback; [exact Hi|].
  exact (object_entries_keys ud kv Hkv).
Qed.

Lemma applyCoverageAmount_fallback (i : string) (ud : option Context) :
  In i intents ->
  ResponseGenerator.applyCoverageAmount (KnowledgeBase.no_information i) ud
  = KnowledgeBase.no_information i.
Proof.
  intros Hi. unfold ResponseGenerator.applyCoverageAmount.
  destruct (truthy_number _) as [amount|]; [|reflexivity].
  cbv zeta.
  rewrite no_placeholder_in_fallback; [|exact Hi|simpl; tauto].
  generalize ("your " ++ formatUSD amount ++ " coverage"). intros tpl.
  simpl in Hi.
  repeat (destruct Hi as [<- | Hi]; [vm_compute; reflexivity|]).
  destruct Hi.
Qed.

Lemma applyPolicyType_fallback (i : string) (ud : option Context) :
  In i intents ->
  ResponseGenerator.applyPolicyType (KnowledgeBase.no_information i) ud
  = KnowledgeBase.no_information i.
Proof.
  intros Hi. unfold ResponseGenerator.applyPolicyType.
  destruct (truthy_string _) as [pt|]; [|reflexivity].
  destruct (findPolicyType pt) as [info|] eqn:Hinfo; [|reflexivity].
  apply find_some in Hinfo. destruct Hinfo as [Hin _].
  simpl in Hi, Hin.
  repeat (destruct Hi as [<- | Hi];
          [repeat (destruct Hin as [<- | Hin]; [vm_compute; reflexivity|]);
           destruct Hin|]).
  destruct Hi.
Qed.

Lemma formatResponse_fallback (i : string) (c : option QuestionCategory) :
  In i intents ->
  ResponseGenerator.formatResponse KnowledgeBase.new
    (KnowledgeBase.no_information i) c
  = fallback_response i.
Proof.
  intros Hi. simpl in Hi.
  repeat (destruct Hi as [<- | Hi];
          [destruct c as [[]|]; vm_compute; reflexivity|]).
  destruct Hi.
Qed.

Lemma lookup_intent (i : string) :
  In i intents ->
  KnowledgeBase.findRelevantInformation KnowledgeBase.new i
  = KnowledgeBase.no_information i.
Proof.
  intros Hi. simpl in Hi.
  repeat (destruct Hi as [<- | Hi]; [vm_compute; reflexivity|]).
  destruct Hi.
Qed.

Lemma generateResponse_fallback (query : string) (ud : option Context) :
  ResponseGenerator.generateResponse KnowledgeBase.new
    {| userQuery := query; previousMessages := None; userData := ud |}
  = Ok (fallback_response (ResponseGenerator.analyzeIntent query)).
Proof.
  rewrite generateResponse_without_history.
  pose proof (analyzeIntent_cases query) as Hi.
  rewrite lookup_intent, applyUserData_fallback, applyCoverageAmount_fallback,
    applyPolicyType_fallback, formatResponse_fallback by exact Hi.
  reflexivity.
Qed.

(** X5.  Over the table of the sources, a call of generateResponse
    without previous messages never answers from the knowledge base:
    whatever the query and the user data, the message is the sentence
    "I don't have specific information about <intent> ..." for one of
    the six intents, the confidence is 0.5, and the suggestions and
    related topics are those of term life insurance, which the sentence
    itself names; no part of the result depends on the user data. *)
Theorem X5_generator_always_falls_back (query : string) (ud : option Context) :
  In (ResponseGenerator.analyzeIntent query)
     ["policy_explanation"; "term_definition"; "coverage_question";
      "health_question"; "claims_question"; "general_insurance_query"]
  /\ ResponseGenerator.generateResponse KnowledgeBase.new
       {| userQuery := query; previousMessages := None; userData := ud |}
     = Ok (Build_FormattedResponse
             (* message *)
             ("I don't have specific information about "
              ++ String dquote (ResponseGenerator.analyzeIntent query)
              ++ String dquote " in my knowledge base. Would you like to know about term life insurance, whole life insurance, or another insurance topic?")
             (* suggestions *)
             (Some ["What is whole life insurance?"; "What is premium?";
                    "What is death benefit?"])
             (* relatedTopics *)
             (Some ["whole life insurance"; "premium"; "death benefit"])
             (* confidence *)
             0.5).
Proof.
  split; [exact (analyzeIntent_cases query)|].
  exact (generateResponse_fallback query ud).
Qed.

(** ** Merging the suggestions *)

Lemma In_firstn {A} (n : nat) (l : list A) (x : A) :
  In x (firstn n l) -> In x l.
Proof.
  revert l. induction n as [|n IH]; intros [|a l] H; simpl in *;
    try contradiction.
  destruct H as [H|H]; [left; exact H | right; apply IH; exact H].
Qed.

Lemma arr_includes_In (xs : list string) (x : string) :
  arr_includes xs x = true <-> In x xs.
Proof.
  unfold arr_includes. rewrite existsb_exists. split.
  - intros [y [Hy Heq]]. apply String.eqb_eq in Heq. subst. exact Hy.
  - intros H. exists x. split; [exact H | apply String.eqb_refl].
Qed.

Lemma merge_suggestions (cats l : list string) :
  exists added,
    fold_left (fun merged suggestion =>
                 if arr_includes merged suggestion then merged
                 else (merged ++ [suggestion])%list) cats l
    = (l ++ added)%list
    /\ forall x, In x added -> In x cats /\ ~ In x l.
Proof.
  revert l. induction cats as [|s cats IH]; intros l; cbn [fold_left].
  - exists []. rewrite app_nil_r. split; [reflexivity | intros x []].
  - destruct (arr_includes l s) eqn:Hs.
    + destruct (IH l) as [added [Heq Hadded]]. exists added.
      split; [exact Heq|]. intros x Hx. destruct (Hadded x Hx). split; [right|]; assumption.
    + destruct (IH (l ++ [s])%list) as [added [Heq Hadded]].
      exists (s :: added). rewrite Heq, <- app_assoc. split; [reflexivity|].
      intros x [<- | Hx].
      * split; [left; reflexivity|].
        intros Hin. apply arr_includes_In in Hin. congruence.
      * destruct (Hadded x Hx) as [H1 H2]. split; [right; exact H1|].
        intros Hin. apply H2. apply in_or_app. left. exact Hin.
Qed.

(** X6.  In formatResponse the suggestions of the knowledge base come
    first and are never displaced: with a category, at most three
    suggestions result, the knowledge-base ones followed by category
    suggestions that are not among them; when the knowledge base gives
    three, the category adds nothing; without a category the
    knowledge-base suggestions are returned as they are. *)
Theorem X6_knowledge_base_suggestions_first
  (kb : KnowledgeBase.t) (response : string) :
  let kbs := KnowledgeBase.getSuggestedQuestions kb response in
  response_suggestions (ResponseGenerator.formatResponse kb response None)
  = Some kbs
  /\ forall c : QuestionCategory,
       (exists extra,
           response_suggestions
             (ResponseGenerator.formatResponse kb response (Some c))
           = Some (kbs ++ extra)%list
           /\ List.length (kbs ++ extra)%list <= 3
           /\ forall x, In x extra ->
                        In x (ResponseGenerator.getSuggestionsByCategory c)
                        /\ ~ In x kbs)
       /\ (List.length kbs = 3 ->
           response_suggestions
             (ResponseGenerator.formatResponse kb response (Some c))
           = Some kbs).
Proof.
  intros kbs. split; [reflexivity|]. intros c.
  unfold response_suggestions, ResponseGenerator.formatResponse.
  cbn [suggestions]. fold kbs.
  destruct (merge_suggestions (ResponseGenerator.getSuggestionsByCategory c) kbs)
    as [added [Heq Hadded]].
  rewrite Heq. unfold slice0.
  assert (Hkbs : List.length kbs <= 3).
  { unfold kbs, KnowledgeBase.getSuggestedQuestions, slice0.
    destruct (filter _ _); [simpl; lia | apply firstn_le_length]. }
  rewrite firstn_app.
  rewrite (firstn_all2 kbs) by exact Hkbs.
  split.
  - exists (firstn (3 - List.length kbs) added).
    split; [reflexivity|]. split.
    + rewrite length_app.
      pose proof (firstn_le_length (3 - List.length kbs) added). lia.
    + intros x Hx. apply Hadded. apply (In_firstn _ _ _ Hx).
  - intros H3. rewrite H3. cbn [Nat.sub firstn]. rewrite app_nil_r. reflexivity.
Qed.

Lemma X6_witness :
  List.length (KnowledgeBase.getSuggestedQuestions KnowledgeBase.new "term life") = 3
  /\ response_suggestions
       (ResponseGenerator.formatResponse KnowledgeBase.new "term life" (Some basic))
     = Some (KnowledgeBase.getSuggestedQuestions KnowledgeBase.new "term life").
Proof.
  split; [reflexivity|].
  apply (proj2 (proj2 (X6_knowledge_base_suggestions_first
                         KnowledgeBase.new "term life") basic)).
  reflexivity.
Defined.

(** ** Templated responses *)

Lemma fill_term_definition (f : string -> list (nat * string) -> string) :
  replace_all_fn template_re f "{{term}} refers to {{definition}}"
  = f "{{term}}" [(1, "term")] ++ " refers to "
    ++ f "{{definition}}" [(1, "definition")]
  /\ replace_all_fn template_re f "In insurance terms, {{term}} means {{definition}}"
     = "In insurance terms, " ++ f "{{term}}" [(1, "term")] ++ " means "
       ++ f "{{definition}}" [(1, "definition")].
Proof.
  split.
  - rewrite <- (string_app_nil_r (f "{{definition}}" [(1, "definition")])).
    vm_compute. reflexivity.
  - rewrite <- (string_app_nil_r (f "{{definition}}" [(1, "definition")])).
    vm_compute. reflexivity.
Qed.

(** X7.  generateTemplatedResponse: an unknown template name yields the
    sentence "I don't have a template for ..." quoting the name; a
    known template whose required variable is missing or empty yields
    "I need more information about <variable> to answer that fully.",
    whatever else is given; and for term_definition with a term, the
    result is one of the two sentences of the template with the term
    inserted, and with the definition inserted if one is given, but the
    text {{definition}} left in place if not. *)
Theorem X7_templated_response (variables : Variables) (rnd : nat) :
  (forall templateName,
      templateName <> "policy_explanation" ->
      templateName <> "term_definition" ->
      generateTemplatedResponse templateName variables rnd
      = Ok ("I don't have a template for " ++ String dquote templateName
            ++ String dquote ". Let me provide you with general information instead."))
  /\ (truthy_string (variable variables "policyType") = None ->
      generateTemplatedResponse "policy_explanation" variables rnd
      = Ok "I need more information about policyType to answer that fully.")
  /\ (truthy_string (variable variables "term") = None ->
      generateTemplatedResponse "term_definition" variables rnd
      = Ok "I need more information about term to answer that fully.")
  /\ (forall t,
        truthy_string (variable variables "term") = Some t ->
        let d := match truthy_string (variable variables "definition") with
                 | Some d => d
                 | None => "{{definition}}"
                 end in
        generateTemplatedResponse "term_definition" variables rnd
        = Ok (t ++ " refers to " ++ d)
        \/ generateTemplatedResponse "term_definition" variables rnd
           = Ok ("In insurance terms, " ++ t ++ " means " ++ d)).
Proof.
  split; [|split; [|split]].
  - intros templateName H1 H2. unfold generateTemplatedResponse,
      getResponseTemplate, responseTemplates. cbn [find intent].
    apply String.eqb_neq in H1, H2.
    rewrite String.eqb_sym in H1. rewrite String.eqb_sym in H2.
    rewrite H1, H2. reflexivity.
  - intros H. unfold generateTemplatedResponse. cbn. rewrite H. reflexivity.
  - intros H. unfold generateTemplatedResponse. cbn. rewrite H. reflexivity.
  - intros t Ht d. unfold generateTemplatedResponse.
    change (getResponseTemplate "term_definition")
      with (Some (nth 1 responseTemplates
                      {| intent := ""; responses := []; contextRequired := None |})).
    cbn [nth responseTemplates contextRequired or_empty filter responses].
    rewrite Ht. cbn [List.length Nat.ltb Nat.leb].
    pose proof (Nat.mod_upper_bound rnd 2 ltac:(discriminate)) as Hlt.
    unfold fillTemplate.
    destruct (fill_term_definition (fill_with variables)) as [E0 E1].
    assert (Ef : fill_with variables "{{term}}" [(1, "term")] = t).
    { unfold fill_with. cbn [lookup_cap Nat.eqb]. rewrite Ht. reflexivity. }
    assert (Ed : fill_with variables "{{definition}}" [(1, "definition")] = d).
    { unfold fill_with. cbn [lookup_cap Nat.eqb]. subst d.
      destruct (truthy_string (variable variables "definition")); reflexivity. }
    destruct (rnd mod 2) as [|[|k]] eqn:Hk.
    + left. cbn [nth_error]. rewrite E0, Ef, Ed. reflexivity.
    + right. cbn [nth_error]. rewrite E1, Ef, Ed. reflexivity.
    + lia.
Qed.

Lemma X7_witness :
  generateTemplatedResponse "greeting" [("term", "Premium")] 0
  = Ok ("I don't have a template for " ++ String dquote "greeting"
        ++ String dquote ". Let me provide you with general information instead.")
  /\ generateTemplatedResponse "policy_explanation" [("term", "Premium")] 1
     = Ok "I need more information about policyType to answer that fully."
  /\ generateTemplatedResponse "term_definition" [("policyType", "term")] 0
     = Ok "I need more information about term to answer that fully."
  /\ generateTemplatedResponse "term_definition" [("term", "Premium")] 4
     = Ok "Premium refers to {{definition}}".
Proof.
  destruct (X7_templated_response [("term", "Premium")] 0) as [H1 _].
  destruct (X7_templated_response [("term", "Premium")] 1) as [_ [H2 _]].
  destruct (X7_templated_response [("policyType", "term")] 0) as [_ [_ [H3 _]]].
  destruct (X7_templated_response [("term", "Premium")] 4) as [_ [_ [_ H4]]].
  split; [apply H1; discriminate|].
  split; [apply H2; reflexivity|].
  split; [apply H3; reflexivity|].
  destruct (H4 "Premium" eq_refl) as [H|H]; [exact H|].
  vm_compute in H. discriminate.
Defined.

(** ** The matcher: where a result comes from *)

Lemma step_char_caps (p : ascii -> bool) (st st' : mstate) :
  step_char p st = Some st' ->
  ms_caps st' = ms_caps st
  /\ exists a, ms_rest st = String a (ms_rest st') /\ p a = true
               /\ ms_pos st' = S (ms_pos st).
Proof.
  unfold step_char. destruct (ms_rest st) as [|a s'] eqn:Hrest; [discriminate|].
  destruct (p a) eqn:Hp; [|discriminate].
  intros H. injection H as <-. cbn. split; [reflexivity|].
  exists a. repeat split. exact Hp.
Qed.

(** A successful run of a group-free regex ends in its continuation, at
    a state with the captures it started with. *)
Lemma run_group_free (r : regex) :
  group_free r = true ->
  forall st k res,
    run r st k = Some res ->
    exists st', k st' = Some res /\ ms_caps st' = ms_caps st.
Proof.
  induction r as [ |c|p|r1 IH1 r2 IH2|r1 IH1 r2 IH2|r1 IH1|i r1 IH1| ];
    intros Hfree st k res H; cbn [group_free] in Hfree.
  - exists st. split; [exact H | reflexivity].
  - cbn [run] in H.
    destruct (step_char (Ascii.eqb c) st) as [st1|] eqn:Hstep; [|discriminate].
    exists st1. split; [exact H | apply (step_char_caps _ _ _ Hstep)].
  - cbn [run] in H.
    destruct (step_char p st) as [st1|] eqn:Hstep; [|discriminate].
    exists st1. split; [exact H | apply (step_char_caps _ _ _ Hstep)].
  - apply andb_true_iff in Hfree. destruct Hfree as [F1 F2].
    cbn [run] in H.
    destruct (IH1 F1 _ _ _ H) as [st1 [H1 C1]].
    destruct (IH2 F2 _ _ _ H1) as [st2 [H2 C2]].
    exists st2. split; [exact H2 | congruence].
  - apply andb_true_iff in Hfree. destruct Hfree as [F1 F2].
    cbn [run] in H.
    destruct (run r1 st k) as [res1|] eqn:Hr1.
    + injection H as <-. exact (IH1 F1 _ _ _ Hr1).
    + exact (IH2 F2 _ _ _ H).
  - cbn [run] in H. revert H.
    generalize (String.length (ms_rest st)). intros fuel. revert st.
    induction fuel as [|fuel IHf]; intros st H.
    + exists st. split; [exact H | reflexivity].
    + match type of H with
      | match ?body with Some _ => _ | None => _ end = _ =>
          destruct body as [res1|] eqn:Hbody
      end.
      * injection H as <-.
        destruct (IH1 Hfree _ _ _ Hbody) as [st1 [H1 C1]].
        destruct (Nat.eqb (ms_pos st1) (ms_pos st)); [discriminate|].
        destruct (IHf st1 H1) as [st2 [H2 C2]].
        exists st2. split; [exact H2 | congruence].
      * exists st. split; [exact H | reflexivity].
  - discriminate.
  - cbn [run] in H.
    destruct (xorb (is_word (ms_prev st)) (is_word (ms_next st))); [|discriminate].
    exists st. split; [exact H | reflexivity].
Qed.

Lemma search_from_match_at (r : regex) (rest : string) :
  forall prev pos m,
    search_from r prev rest pos = Some m ->
    exists prev' rest' pos', match_at r prev' rest' pos' = Some m.
Proof.
  induction rest as [|a rest IH]; intros prev pos m H; cbn [search_from] in H.
  - destruct (match_at r prev "" pos) as [m'|] eqn:Hm; [|discriminate].
    injection H as <-. exists prev, "", pos. exact Hm.
  - destruct (match_at r prev (String a rest) pos) as [m'|] eqn:Hm.
    + injection H as <-. exists prev, (String a rest), pos. exact Hm.
    + exact (IH _ _ _ H).
Qed.

(** ** The context extractor: ranges *)

Lemma digit_val_le_9 (a : ascii) : is_digit a = true -> (digit_val a <= 9)%N.
Proof.
  unfold is_digit, between, digit_val.
  intros H. apply andb_true_iff in H. destruct H as [H1 H2].
  apply N.leb_le in H1, H2. lia.
Qed.

Lemma run_Cat (r1 r2 : regex) st k :
  run (Cat r1 r2) st k = run r1 st (fun st1 => run r2 st1 k).
Proof. reflexivity. Qed.

Lemma run_Grp (i : nat) (r : regex) st k :
  run (Grp i r) st k = run r st (fun st1 => k (set_cap i st st1)).
Proof. reflexivity. Qed.

Lemma run_WordB st k :
  run WordB st k
  = if xorb (is_word (ms_prev st)) (is_word (ms_next st)) then k st else None.
Proof. reflexivity. Qed.

(** [\d{1,2}] consumes one digit or two. *)
Lemma run_one_or_two_digits st k res :
  run (Cat (Cls cls_d) (Cat (Opt (Cls cls_d)) Eps)) st k = Some res ->
  exists st1 a,
    k st1 = Some res /\ is_digit a = true
    /\ ((ms_rest st = String a (ms_rest st1) /\ ms_pos st1 = S (ms_pos st))
        \/ exists b, is_digit b = true
                     /\ ms_rest st = String a (String b (ms_rest st1))
                     /\ ms_pos st1 = S (S (ms_pos st))).
Proof.
  unfold Opt. cbn [run]. intros H.
  destruct (step_char cls_d st) as [sa|] eqn:Ha; [|discriminate].
  destruct (step_char_caps _ _ _ Ha) as [_ [a [Ra [Da Pa]]]].
  destruct (step_char cls_d sa) as [sb|] eqn:Hb.
  - destruct (step_char_caps _ _ _ Hb) as [_ [b [Rb [Db Pb]]]].
    destruct (k sb) as [res'|] eqn:Hk.
    + injection H as <-. exists sb, a. split; [exact Hk|]. split; [exact Da|].
      right. exists b. split; [exact Db|]. rewrite Ra, Rb, Pb, Pa. split; reflexivity.
    + exists sa, a. split; [exact H|]. split; [exact Da|]. left. split; assumption.
  - exists sa, a. split; [exact H|]. split; [exact Da|]. left. split; assumption.
Qed.

Lemma substring_0_0 (s : string) : String.substring 0 0 s = "".
Proof. destruct s; reflexivity. Qed.

(** The first group of the age regex holds one or two digits. *)
Lemma age_group (query : string) (m : rmatch) :
  exec InsuranceService.age_re query = Some m ->
  exists a, is_digit a = true
            /\ (group m 1 = Some (String a "")
                \/ exists b, is_digit b = true
                             /\ group m 1 = Some (String a (String b ""))).
Proof.
  unfold exec. intros H.
  destruct (search_from_match_at _ _ _ _ _ H) as [prev [rest [pos Hm]]].
  clear H. unfold match_at in Hm.
  destruct (run InsuranceService.age_re (MState prev rest pos []) Some)
    as [st|] eqn:Hrun; [|discriminate].
  injection Hm as <-. unfold group. cbn [m_caps].
  unfold InsuranceService.age_re in Hrun.
  cbn [seq fold_right] in Hrun.
  rewrite run_Cat, run_WordB in Hrun.
  destruct (xorb _ _); [|discriminate].
  rewrite run_Cat, run_Grp in Hrun.
  apply run_one_or_two_digits in Hrun.
  destruct Hrun as [st1 [a [Hk [Da Hshape]]]].
  match type of Hk with
  | run ?r ?s ?k = _ =>
      destruct (run_group_free r eq_refl s k _ Hk) as [st' [Hend Hc]]
  end.
  injection Hend as <-. rewrite Hc.
  cbn [set_cap ms_caps ms_pos ms_rest lookup_cap Nat.eqb].
  exists a. split; [exact Da|].
  destruct Hshape as [[Hr Hp] | [b [Db [Hr Hp]]]];
    cbn [ms_rest ms_pos] in Hr, Hp; rewrite Hr, Hp.
  - left. replace (S pos - pos) with 1 by lia.
    cbn [String.substring]. rewrite substring_0_0. reflexivity.
  - right. exists b. split; [exact Db|].
    replace (S (S pos) - pos) with 2 by lia.
    cbn [String.substring]. rewrite substring_0_0. reflexivity.
Qed.

(** X8.  An age that the extractor reports is between 1 and 99: the
    regex takes one or two digits, so the upper check against 120 never
    rejects anything, and ages of 100 and more are never reported. *)
Theorem X8_extracted_age_range (query : string) (a : N) :
  InsuranceService.extractAge query = Some a -> (1 <= a <= 99)%N.
Proof.
  unfold InsuranceService.extractAge.
  destruct (exec InsuranceService.age_re query) as [m|] eqn:Hm; [|discriminate].
  destruct (age_group query m Hm) as [x [Dx [Hg | [y [Dy Hg]]]]]; rewrite Hg;
    cbn [truthy_string String.eqb]; unfold parseInt10; cbn [digits_acc];
    rewrite Dx; try rewrite Dy; cbn [digits_acc];
    pose proof (digit_val_le_9 x Dx) as Hx;
    try pose proof (digit_val_le_9 y Dy) as Hy.
  - destruct (_ && _) eqn:Hrange; [|discriminate].
    intros H. injection H as <-.
    apply andb_true_iff in Hrange. destruct Hrange as [H0 _].
    apply N.ltb_lt in H0. lia.
  - destruct (_ && _) eqn:Hrange; [|discriminate].
    intros H. injection H as <-.
    apply andb_true_iff in Hrange. destruct Hrange as [H0 _].
    apply N.ltb_lt in H0. lia.
Qed.

Lemma X8_witness :
  InsuranceService.extractAge "my 42 year-old husband needs a policy"
  = Some 42%N /\ (1 <= 42 <= 99)%N.
Proof.
  split; [vm_compute; reflexivity|].
  apply (X8_extracted_age_range "my 42 year-old husband needs a policy").
  vm_compute. reflexivity.
Defined.



(** ** Extractor and categorizer together *)

Lemma keyword_hit (lower keyword part : string) (keywords : list string) :
  includes lower keyword = true ->
  includes keyword part = true ->
  In part keywords ->
  InsuranceService.includes_any lower keywords = true.
Proof.
  intros H1 H2 Hin. apply includes_any_true. exists part.
  split; [exact Hin | exact (includes_trans _ _ _ H1 H2)].
Qed.

(** X10.  A query in which the extractor finds a policy type is never
    categorized as basic: each of the four phrases contains a policy
    keyword of the categorizer. *)
Theorem X10_policy_type_means_not_basic (query : string) (pt : string) :
  InsuranceService.extractPolicyType query = Some pt ->
  InsuranceService.categorizeQuestion query <> basic.
Proof.
  unfold InsuranceService.extractPolicyType. intros H.
  assert (Hpolicy : InsuranceService.includes_any (toLowerCase query)
                      InsuranceService.policy_keywords = true).
  { destruct (includes (toLowerCase query) "term life") eqn:H1.
    { apply (keyword_hit _ "term life" "term"); [exact H1|reflexivity|simpl; tauto]. }
    destruct (includes (toLowerCase query) "whole life") eqn:H2.
    { apply (keyword_hit _ "whole life" "whole life"); [exact H2|reflexivity|simpl; tauto]. }
    destruct (includes (toLowerCase query) "universal life") eqn:H3.
    { apply (keyword_hit _ "universal life" "universal"); [exact H3|reflexivity|simpl; tauto]. }
    destruct (includes (toLowerCase query) "variable life") eqn:H4.
    { apply (keyword_hit _ "variable life" "variable"); [exact H4|reflexivity|simpl; tauto]. }
    discriminate. }
  unfold InsuranceService.categorizeQuestion. rewrite Hpolicy.
  destruct (InsuranceService.includes_any _ InsuranceService.health_keywords);
    [discriminate|].
  destruct (InsuranceService.includes_any _ InsuranceService.claims_keywords);
    discriminate.
Qed.

Lemma X10_witness :
  InsuranceService.categorizeQuestion "Is Universal Life right for me?" <> basic.
Proof.
  apply (X10_policy_type_means_not_basic "Is Universal Life right for me?"
           "universal").
  vm_compute. reflexivity.
Defined.

(** X11.  A query for which the extractor sets a health status is
    categorized as health, unless the status comes from "high blood
    pressure" or "smoke cigarettes", two phrases that hold no health
    keyword of the categorizer; "I have high blood pressure" is such a
    query: status pre-existing condition, category basic. *)
Theorem X11_health_status_and_category :
  (forall (query status : string),
      InsuranceService.extractHealthStatus query = Some status ->
      InsuranceService.categorizeQuestion query = health
      \/ includes (toLowerCase query) "high blood pressure" = true
      \/ includes (toLowerCase query) "smoke cigarettes" = true)
  /\ InsuranceService.extractHealthStatus "I have high blood pressure"
     = Some "pre-existing condition"
  /\ InsuranceService.categorizeQuestion "I have high blood pressure" = basic.
Proof.
  split; [|split; vm_compute; reflexivity].
  intros query status. unfold InsuranceService.extractHealthStatus. intros H.
  assert (Hhealth : forall keyword part,
             includes (toLowerCase query) keyword = true ->
             includes keyword part = true ->
             In part InsuranceService.health_keywords ->
             InsuranceService.categorizeQuestion query = health).
  { intros keyword part H1 H2 Hin. unfold InsuranceService.categorizeQuestion.
    rewrite (keyword_hit _ keyword part _ H1 H2 Hin). reflexivity. }
  destruct (includes (toLowerCase query) "diabetes") eqn:H1.
  { left. apply (Hhealth "diabetes" "diabetes"); [exact H1|reflexivity|simpl; tauto]. }
  destruct (includes (toLowerCase query) "high blood pressure") eqn:H2.
  { right. left. reflexivity. }
  destruct (includes (toLowerCase query) "heart condition") eqn:H3.
  { left. apply (Hhealth "heart condition" "condition");
      [exact H3|reflexivity|simpl; tauto]. }
  destruct (includes (toLowerCase query) "smoker") eqn:H4.
  { left. apply (Hhealth "smoker" "smoker"); [exact H4|reflexivity|simpl; tauto]. }
  destruct (includes (toLowerCase query) "smoke cigarettes") eqn:H5.
  { right. right. reflexivity. }
  destruct (includes (toLowerCase query) "excellent health") eqn:H6.
  { left. apply (Hhealth "excellent health" "health");
      [exact H6|reflexivity|simpl; tauto]. }
  destruct (includes (toLowerCase query) "good health") eqn:H7.
  { left. apply (Hhealth "good health" "health");
      [exact H7|reflexivity|simpl; tauto]. }
  discriminate.
Qed.

Lemma X11_witness :
  InsuranceService.categorizeQuestion "I am in Good Health" = health
  \/ includes (toLowerCase "I am in Good Health") "high blood pressure" = true
  \/ includes (toLowerCase "I am in Good Health") "smoke cigarettes" = true.
Proof.
  apply (proj1 X11_health_status_and_category "I am in Good Health" "good health").
  vm_compute. reflexivity.
Defined.

(** ** Follow-up questions *)

Lemma unique_In (xs : list string) (x : string) : In x (unique xs) -> In x xs.
Proof.
  induction xs as [|y xs IH]; cbn [unique]; [intros []|].
  intros [<- | H]; [left; reflexivity|].
  apply filter_In in H. right. apply IH. apply H.
Qed.

Lemma unique_NoDup (xs : list string) : NoDup (unique xs).
Proof.
  induction xs as [|x xs IH]; cbn [unique]; constructor.
  - intros H. apply filter_In in H. destruct H as [_ H].
    rewrite String.eqb_refl in H. discriminate.
  - apply NoDup_filter. exact IH.
Qed.

Lemma firstn_NoDup {A} (n : nat) (l : list A) : NoDup l -> NoDup (firstn n l).
Proof.
  revert l. induction n as [|n IH]; intros [|a l] H; cbn [firstn];
    try constructor.
  - inversion H as [|? ? Hnot Hnd]; subst.
    intros Hin. apply Hnot. apply (In_firstn _ _ _ Hin).
  - inversion H; subst. apply IH. assumption.
Qed.

Lemma follow_ups_three (c : QuestionCategory) (query : string) :
  List.length
    (InsuranceService.generateFollowUpQuestions KnowledgeBase.new c query) = 3.
Proof.
  unfold InsuranceService.generateFollowUpQuestions,
    KnowledgeBase.getRelatedTopics.
  destruct (filter (KnowledgeBase.mentioned_in query)
              (KnowledgeBase.entries KnowledgeBase.new))
    as [|first rest] eqn:Hf.
  - destruct c; reflexivity.
  - destruct (filter_head_in _ _ _ _ Hf) as [Hin _]. simpl in Hin.
    repeat (destruct Hin as [<- | Hin]; [destruct c; reflexivity|]).
    destruct Hin.
Qed.

(** X12.  generateFollowUpQuestions returns at most three questions
    without repetition, for any table, category and query; over the
    table of the sources it returns exactly three. *)
Theorem X12_follow_up_questions :
  (forall (kb : KnowledgeBase.t) (c : QuestionCategory) (query : string),
      NoDup (InsuranceService.generateFollowUpQuestions kb c query)
      /\ List.length (InsuranceService.generateFollowUpQuestions kb c query) <= 3)
  /\
  (forall (c : QuestionCategory) (query : string),
      List.length
        (InsuranceService.generateFollowUpQuestions KnowledgeBase.new c query)
      = 3).
Proof.
  split.
  - intros kb c query. unfold InsuranceService.generateFollowUpQuestions, slice0.
    split; [apply firstn_NoDup, unique_NoDup | apply firstn_le_length].
  - exact follow_ups_three.
Qed.

(** ** Enhancing an AI reply *)

Lemma includes_ci_suffix (a b c : string) :
  includes_ci (a ++ b ++ c) c = true.
Proof.
  unfold includes_ci. apply includes_app.
  exists (toLowerCase a ++ toLowerCase b), "".
  rewrite !toLowerCase_app, string_app_nil_r, string_app_assoc. reflexivity.
Qed.

(** X13.  enhanceResponseWithKnowledgeBase only appends: the AI text
    stays in front as it is.  And when the context resolves to no
    policy of the table (as every extracted context does), enhancing
    an enhanced reply again changes nothing. *)
Theorem X13_enhance_appends_once
  (kb : KnowledgeBase.t) (aiResponse query : string) (context : Context)
  (c : QuestionCategory) :
  let enhanced :=
    InsuranceService.enhanceResponseWithKnowledgeBase kb aiResponse query
      context c in
  (exists suffix, enhanced = aiResponse ++ suffix)
  /\ (policyInfo_of context = None ->
      InsuranceService.enhanceResponseWithKnowledgeBase kb enhanced query
        context c = enhanced).
Proof.
  intros enhanced. subst enhanced.
  unfold InsuranceService.enhanceResponseWithKnowledgeBase, policyInfo_of.
  cbv zeta.
  set (info := KnowledgeBase.findRelevantInformation kb query).
  destruct (String.eqb info "") eqn:Hempty.
  - split; [exists ""; rewrite string_app_nil_r; reflexivity | reflexivity].
  - destruct (match truthy_string (policyType context) with
              | Some pt => findPolicyType pt
              | None => None
              end) as [p|].
    + split; [|discriminate].
      destruct (negb (includes_ci aiResponse (description p)));
        [eexists; reflexivity|].
      destruct (negb (includes_ci aiResponse info));
        [eexists; reflexivity|].
      exists "". rewrite string_app_nil_r. reflexivity.
    + destruct (negb (includes_ci aiResponse info)) eqn:Hinc.
      * split; [eexists; reflexivity|]. intros _.
        unfold InsuranceService.additional_information.
        assert (E : includes_ci
                      (aiResponse ++ nl ++ nl ++ "Additional information: " ++ info)
                      info = true).
        { rewrite <- (string_app_assoc nl nl), <- (string_app_assoc (nl ++ nl)).
          apply includes_ci_suffix. }
        rewrite E. reflexivity.
      * split; [exists ""; rewrite string_app_nil_r; reflexivity|].
        intros _. rewrite Hinc. reflexivity.
Qed.

Lemma X13_witness :
  let ctx := InsuranceService.extractContextFromQuery "What is a premium?" policy in
  let enhanced :=
    InsuranceService.enhanceResponseWithKnowledgeBase KnowledgeBase.new
      "It is what you pay." "What is a premium?" ctx policy in
  InsuranceService.enhanceResponseWithKnowledgeBase KnowledgeBase.new enhanced
    "What is a premium?" ctx policy = enhanced.
Proof.
  apply (proj2 (X13_enhance_appends_once KnowledgeBase.new "It is what you pay."
                  "What is a premium?"
                  (InsuranceService.extractContextFromQuery "What is a premium?"
                     policy)
                  policy)).
  reflexivity.
Defined.

(** ** The orchestration service without a usable model *)

(** X14.  Over the table of the sources, whenever processQuery does not
    get a reply from a model (the AI path is disabled, or it throws at
    any point), the answer is the sentence "I don't have specific
    information about <intent> ..." for the intent of the query: the
    knowledge-base path never answers from the knowledge base, and its
    answer does not depend on the provider, the keys or the settings. *)
Theorem X14_processQuery_without_model
  (ApiKeys ProviderSettings : Type) (config : InsuranceServiceConfig)
  (llmManager : LLMManager ApiKeys ProviderSettings)
  (query : string) (modelOverride : option string)
  (apiKeys : option ApiKeys) (providerSettings : option ProviderSettings) :
  let kb := KnowledgeBase.new in
  let category := InsuranceService.categorizeQuestion query in
  let context := InsuranceService.extractContextFromQuery query category in
  InsuranceService.ai_enabled config modelOverride = false
  \/ (exists e,
        InsuranceService.ai_response ApiKeys ProviderSettings config kb
          llmManager query context category modelOverride apiKeys
          providerSettings = Throw e) ->
  InsuranceService.processQuery ApiKeys ProviderSettings config kb llmManager
    (ResponseGenerator.generateResponse kb) query modelOverride apiKeys
    providerSettings
  = Ok ("I don't have specific information about "
        ++ String dquote (ResponseGenerator.analyzeIntent query)
        ++ String dquote " in my knowledge base. Would you like to know about term life insurance, whole life insurance, or another insurance topic?").
Proof.
  intros kb category context H.
  assert (Hkb : InsuranceService.from_knowledge_base
                  (ResponseGenerator.generateResponse kb) query context
                = Ok (KnowledgeBase.no_information
                        (ResponseGenerator.analyzeIntent query))).
  { unfold InsuranceService.from_knowledge_base.
    rewrite generateResponse_fallback. reflexivity. }
  destruct H as [Hoff | [e Hai]].
  - unfold InsuranceService.processQuery. rewrite Hoff.
    fold category. fold context. rewrite Hkb. reflexivity.
  - rewrite (processQuery_fallback _ _ _ _ _ _ _ _ _ _ e Hai).
    fold category. fold context. rewrite Hkb. reflexivity.
Qed.

Lemma X14_witness :
  InsuranceService.processQuery unit unit
    {| model := "gpt-3.5-turbo"; temperature := 0.7; maxTokens := 200;
       useAI := Some false |}
    KnowledgeBase.new rejecting_manager
    (ResponseGenerator.generateResponse KnowledgeBase.new)
    "What is whole life insurance?" None None None
  = Ok ("I don't have specific information about "
        ++ String dquote "policy_explanation"
        ++ String dquote " in my knowledge base. Would you like to know about term life insurance, whole life insurance, or another insurance topic?").
Proof.
  apply (X14_processQuery_without_model unit unit
           {| model := "gpt-3.5-turbo"; temperature := 0.7; maxTokens := 200;
              useAI := Some false |}
           rejecting_manager "What is whole life insurance?" None None None).
  left. reflexivity.
Defined.

(** X15.  getLanguageModel: a model name that the manager does not list
    is silently replaced by the first static model of the default
    provider; whenever an OpenAI provider is registered and can
    instantiate gpt-3.5-turbo, the function returns a model, whatever
    fails before; and when the provider of a listed model is not
    registered and there is no OpenAI provider either, it throws
    "Failed to get language model and no fallback available: Provider
    <p> not found for model <name>". *)
Theorem X15_getLanguageModel_fallbacks
  (ApiKeys ProviderSettings : Type)
  (llmManager : LLMManager ApiKeys ProviderSettings)
  (modelName : string) (apiKeys : option ApiKeys)
  (providerSettings : option ProviderSettings) :
  let result :=
    InsuranceService.getLanguageModel ApiKeys ProviderSettings llmManager
      modelName apiKeys providerSettings in
  (forall modelList defaultProvider first others mdl,
      getModelList llmManager = Ok modelList ->
      find (fun m => String.eqb (mi_name m) modelName) modelList = None ->
      getDefaultProvider llmManager = Ok defaultProvider ->
      staticModels defaultProvider = first :: others ->
      getModelInstance defaultProvider first apiKeys providerSettings = Ok mdl ->
      result = Ok mdl)
  /\ (forall openAI mdl,
        getProvider llmManager "OpenAI" = Ok (Some openAI) ->
        getModelInstance openAI "gpt-3.5-turbo" apiKeys providerSettings = Ok mdl ->
        exists answer, result = Ok answer)
  /\ (forall modelList modelInfo,
        getModelList llmManager = Ok modelList ->
        find (fun m => String.eqb (mi_name m) modelName) modelList
        = Some modelInfo ->
        getProvider llmManager (mi_provider modelInfo) = Ok None ->
        getProvider llmManager "OpenAI" = Ok None ->
        result
        = Throw (OtherError
                   ("Failed to get language model and no fallback available: Provider "
                    ++ mi_provider modelInfo ++ " not found for model "
                    ++ modelName))).
Proof.
  intros result. subst result. unfold InsuranceService.getLanguageModel.
  split; [|split].
  - intros modelList defaultProvider first others mdl Hl Hf Hd Hs Hi.
    rewrite Hl. cbn [bind]. rewrite Hf, Hd. cbn [bind]. rewrite Hs, Hi.
    reflexivity.
  - intros openAI mdl Hp Hi. unfold try_catch.
    match goal with
    | |- exists a, match ?body with Ok x => _ | Throw _ => _ end = _ =>
        destruct body as [x|e]
    end.
    + eexists. reflexivity.
    + rewrite Hp. cbn [bind]. rewrite Hi. eexists. reflexivity.
  - intros modelList modelInfo Hl Hf Hp Ho.
    rewrite Hl. cbn [bind]. rewrite Hf, Hp. cbn [bind try_catch].
    rewrite Ho. cbn [bind error_message]. reflexivity.
Qed.

Lemma X15_witness :
  InsuranceService.getLanguageModel unit unit rejecting_manager "no-such-model"
    None None = Ok rejecting_model
  /\ (exists answer,
        InsuranceService.getLanguageModel unit unit rejecting_manager
          "gpt-3.5-turbo" None None = Ok answer)
  /\ InsuranceService.getLanguageModel unit unit orphan_manager "claude-3"
       None None
     = Throw (OtherError
                "Failed to get language model and no fallback available: Provider Anthropic not found for model claude-3").
Proof.
  split; [|split].
  - apply (proj1 (X15_getLanguageModel_fallbacks unit unit rejecting_manager
                    "no-such-model" None None)
             [ {| mi_name := "gpt-3.5-turbo"; mi_provider := "OpenAI" |} ]
             rejecting_provider "gpt-3.5-turbo" [] rejecting_model);
      reflexivity.
  - apply (proj1 (proj2 (X15_getLanguageModel_fallbacks unit unit
                           rejecting_manager "gpt-3.5-turbo" None None))
             rejecting_provider rejecting_model); reflexivity.
  - apply (proj2 (proj2 (X15_getLanguageModel_fallbacks unit unit
                           orphan_manager "claude-3" None None))
             [ {| mi_name := "claude-3"; mi_provider := "Anthropic" |} ]
             {| mi_name := "claude-3"; mi_provider := "Anthropic" |});
      reflexivity.
Defined.

(** ** The hook: what a turn depends on *)



(** X17.  With the service of the sources, a turn merges the extracted
    context into the context ref key by key: a value found in the text
    replaces the remembered one, a key the text does not give keeps its
    remembered value, and the category is always that of the last
    text. *)
Theorem X17_context_accumulates
  (ApiKeys ProviderSettings : Type) (config : InsuranceServiceConfig)
  (llmManager : LLMManager ApiKeys ProviderSettings)
  (apiKeys : option ApiKeys) (providerSettings : option ProviderSettings)
  (text : string) (st : State) :
  let real := service_of config llmManager apiKeys providerSettings in
  let before := contextRef st in
  let after := contextRef (sendMessage real text st) in
  let keep {A} (found remembered : option A) : option A :=
    match found with Some v => Some v | None => remembered end in
  ctx_category after = Some (InsuranceService.categorizeQuestion text)
  /\ policyType after
     = keep (InsuranceService.extractPolicyType text) (policyType before)
  /\ coverageAmount after
     = keep (InsuranceService.extractCoverageAmount text) (coverageAmount before)
  /\ age after = keep (InsuranceService.extractAge text) (age before)
  /\ healthStatus after
     = keep (InsuranceService.extractHealthStatus text) (healthStatus before).
Proof.
  intros real before after keep. subst after before.
  destruct (real_service_replies ApiKeys ProviderSettings config llmManager
              apiKeys providerSettings text (send_begin text st))
    as [r [_ Ha]].
  fold real in Ha.
  assert (Hctx : fst (await_service real text (send_begin text st))
                 = spread (contextRef st)
                     (InsuranceService.extractContextFromQuery text
                        (InsuranceService.categorizeQuestion text))).
  { reflexivity. }
  unfold sendMessage, send_end. rewrite Ha. cbn [contextRef]. rewrite Hctx.
  unfold spread, orElse, keep.
  cbn [ctx_category policyType coverageAmount age healthStatus
       InsuranceService.extractContextFromQuery].
  repeat split;
    match goal with
    | |- match ?x with _ => _ end = _ => destruct x; reflexivity
    end.
Qed.

(** ** The cache service *)

Section CacheFacts.
Variable V : Type.

Lemma map_get_set_same (store : CacheService.Store V) key item :
  CacheService.map_get V (CacheService.map_set V store key item) key = Some item.
Proof.
  induction store as [|[k old] store IH]; cbn [CacheService.map_set CacheService.map_get].
  - rewrite String.eqb_refl. reflexivity.
  - destruct (String.eqb k key) eqn:Hk; cbn [CacheService.map_get]; rewrite Hk.
    + reflexivity.
    + exact IH.
Qed.

Lemma map_get_set_other (store : CacheService.Store V) key key' item :
  key <> key' ->
  CacheService.map_get V (CacheService.map_set V store key item) key'
  = CacheService.map_get V store key'.
Proof.
  intros Hne.
  induction store as [|[k old] store IH]; cbn [CacheService.map_set CacheService.map_get].
  - apply String.eqb_neq in Hne. rewrite Hne. reflexivity.
  - destruct (String.eqb k key) eqn:Hk; cbn [CacheService.map_get].
    + apply String.eqb_eq in Hk. subst k.
      apply String.eqb_neq in Hne. rewrite Hne. reflexivity.
    + destruct (String.eqb k key'); [reflexivity | exact IH].
Qed.

Lemma map_get_delete_same (store : CacheService.Store V) key :
  CacheService.map_get V (CacheService.map_delete V store key) key = None.
Proof.
  unfold CacheService.map_delete.
  induction store as [|[k old] store IH]; cbn [filter CacheService.map_get fst];
    [reflexivity|].
  destruct (String.eqb k key) eqn:Hk; cbn [negb CacheService.map_get];
    [exact IH | rewrite Hk; exact IH].
Qed.

Lemma map_get_delete_other (store : CacheService.Store V) key key' :
  key <> key' ->
  CacheService.map_get V (CacheService.map_delete V store key) key'
  = CacheService.map_get V store key'.
Proof.
  intros Hne. unfold CacheService.map_delete.
  induction store as [|[k old] store IH]; cbn [filter CacheService.map_get fst];
    [reflexivity|].
  destruct (String.eqb k key) eqn:Hk; cbn [negb CacheService.map_get].
  - apply String.eqb_eq in Hk. subst k.
    apply String.eqb_neq in Hne. rewrite Hne. exact IH.
  - rewrite IH. reflexivity.
Qed.

Lemma getKey_injective (cache : CacheService.t V) key key' :
  CacheService.getKey V cache key = CacheService.getKey V cache key' ->
  key = key'.
Proof.
  unfold CacheService.getKey.
  induction (CacheService.prefix V cache) as [|a p IH]; cbn; intros H.
  - exact H.
  - injection H as H. exact (IH H).
Qed.

(** What [get] finds right after a [set] with a positive lifetime. *)
Lemma get_after_set (cache : CacheService.t V) key value ttl t0 t1 :
  (0 <= t0)%Z -> (0 < CacheService.lifetime V cache ttl)%Z ->
  let cache1 := CacheService.set V t0 cache key value ttl in
  let deadline := (t0 + CacheService.lifetime V cache ttl * 1000)%Z in
  CacheService.get V t1 cache1 key
  = if (deadline <? t1)%Z
    then (None,
          CacheService.with_storage V cache1
            (CacheService.map_delete V (CacheService.storage V cache1)
               (CacheService.getKey V cache key)))
    else (value, cache1).
Proof.
  intros Ht0 Hlife cache1 deadline. subst cache1.
  unfold CacheService.get, CacheService.storage_get, CacheService.set,
    CacheService.storage_set.
  cbn [CacheService.storage CacheService.with_storage CacheService.getKey
       CacheService.prefix].
  change (CacheService.prefix V cache ++ key) with (CacheService.getKey V cache key).
  rewrite map_get_set_same.
  cbn [CacheService.item_expiry CacheService.item_value CacheService.truthy_Z].
  destruct (CacheService.lifetime V cache ttl =? 0)%Z eqn:H0;
    [apply Z.eqb_eq in H0; lia|].
  cbn [CacheService.truthy_Z].
  destruct (t0 + CacheService.lifetime V cache ttl * 1000 =? 0)%Z eqn:H1;
    [apply Z.eqb_eq in H1; lia|].
  fold deadline.
  destruct (deadline <? t1)%Z; reflexivity.
Qed.

End CacheFacts.

(** X18.  Cache round trip.  After set(key, value, ttl) at time t0,
    where a ttl that is omitted or 0 stands for the default lifetime and
    the lifetime in force is positive, get(key) returns the value and
    leaves the cache as it is up to and including t0 + lifetime * 1000
    milliseconds; later than that it returns null and removes the
    entry, so that every further get returns null as well. *)
Theorem X18_cache_round_trip
  (V : Type) (cache : CacheService.t V) (key : string) (value : option V)
  (ttl : option Z) (t0 t1 : Z) :
  let life :=
    match ttl with
    | Some seconds =>
        if (seconds =? 0)%Z then CacheService.defaultTTL V cache else seconds
    | None => CacheService.defaultTTL V cache
    end in
  let cache1 := CacheService.set V t0 cache key value ttl in
  (0 <= t0)%Z -> (0 < life)%Z ->
  ((t1 <= t0 + life * 1000)%Z ->
   CacheService.get V t1 cache1 key = (value, cache1))
  /\ ((t0 + life * 1000 < t1)%Z ->
      fst (CacheService.get V t1 cache1 key) = None
      /\ forall t2,
           fst (CacheService.get V t2 (snd (CacheService.get V t1 cache1 key)) key)
           = None).
Proof.
  intros life cache1 Ht0 Hlife.
  assert (Elife : CacheService.lifetime V cache ttl = life).
  { unfold CacheService.lifetime, CacheService.truthy_Z, life.
    destruct ttl as [s|]; [destruct (s =? 0)%Z|]; reflexivity. }
  pose proof (get_after_set V cache key value ttl t0 t1 Ht0) as Hget.
  rewrite Elife in Hget. specialize (Hget Hlife). cbv zeta in Hget.
  fold cache1 in Hget.
  split.
  - intros Hle. rewrite Hget.
    destruct (t0 + life * 1000 <? t1)%Z eqn:Hlt; [apply Z.ltb_lt in Hlt; lia|].
    reflexivity.
  - intros Hgt. rewrite Hget.
    apply Z.ltb_lt in Hgt. rewrite Hgt. cbn [fst snd]. split; [reflexivity|].
    intros t2. unfold CacheService.get, CacheService.storage_get.
    cbn [CacheService.with_storage CacheService.storage CacheService.getKey
         CacheService.prefix fst].
    change (CacheService.prefix V cache1 ++ key)
      with (CacheService.getKey V cache key).
    rewrite map_get_delete_same. reflexivity.
Qed.

Lemma X18_witness :
  CacheService.get string 3600000
    (CacheService.set string 0 text_cache "quote:42" (Some "term, $500k") None)
    "quote:42"
  = (Some "term, $500k",
     CacheService.set string 0 text_cache "quote:42" (Some "term, $500k") None)
  /\ fst (CacheService.get string 3600001
            (CacheService.set string 0 text_cache "quote:42"
               (Some "term, $500k") (Some 0%Z))
            "quote:42") = None.
Proof.
  split.
  - apply (proj1 (X18_cache_round_trip string text_cache "quote:42"
                    (Some "term, $500k") None 0 3600000
                    ltac:(reflexivity) ltac:(reflexivity))).
    discriminate.
  - apply (proj2 (X18_cache_round_trip string text_cache "quote:42"
                    (Some "term, $500k") (Some 0%Z) 0 3600001
                    ltac:(discriminate) ltac:(reflexivity))).
    reflexivity.
Defined.

(** X19.  Cache keys do not interfere: set and delete of one key leave
    what get returns for any other key unchanged; after delete of a key
    get returns null for it, and after clear for every key. *)
Theorem X19_cache_keys_independent
  (V : Type) (cache : CacheService.t V) (key key' : string) (value : option V)
  (ttl : option Z) (t0 t : Z) :
  (key <> key' ->
   fst (CacheService.get V t (CacheService.set V t0 cache key value ttl) key')
   = fst (CacheService.get V t cache key')
   /\ fst (CacheService.get V t (CacheService.delete V cache key) key')
      = fst (CacheService.get V t cache key'))
  /\ fst (CacheService.get V t (CacheService.delete V cache key) key) = None
  /\ fst (CacheService.get V t (CacheService.clear V cache) key) = None.
Proof.
  split; [|split].
  - intros Hne.
    assert (Hfull : CacheService.getKey V cache key
                    <> CacheService.getKey V cache key').
    { intros H. apply Hne. exact (getKey_injective V cache key key' H). }
    unfold CacheService.get, CacheService.set, CacheService.delete,
      CacheService.storage_get, CacheService.storage_set.
    cbn [CacheService.with_storage CacheService.storage CacheService.getKey
         CacheService.prefix].
    change (CacheService.prefix V cache ++ key')
      with (CacheService.getKey V cache key').
    change (CacheService.prefix V cache ++ key)
      with (CacheService.getKey V cache key).
    rewrite (map_get_set_other V _ _ _ _ Hfull),
      (map_get_delete_other V _ _ _ Hfull).
    split.
    + destruct (CacheService.map_get V (CacheService.storage V cache)
                  (CacheService.getKey V cache key')) as [item|]; [|reflexivity].
      destruct (CacheService.truthy_Z (CacheService.item_expiry V item));
        [|reflexivity].
      destruct (_ <? _)%Z; reflexivity.
    + destruct (CacheService.map_get V (CacheService.storage V cache)
                  (CacheService.getKey V cache key')) as [item|]; [|reflexivity].
      destruct (CacheService.truthy_Z (CacheService.item_expiry V item));
        [|reflexivity].
      destruct (_ <? _)%Z; reflexivity.
  - unfold CacheService.get, CacheService.delete, CacheService.storage_get.
    cbn [CacheService.with_storage CacheService.storage CacheService.getKey
         CacheService.prefix].
    change (CacheService.prefix V cache ++ key)
      with (CacheService.getKey V cache key).
    rewrite map_get_delete_same. reflexivity.
  - reflexivity.
Qed.

Lemma X19_witness :
  fst (CacheService.get string 10
         (CacheService.set string 0 text_cache "a" (Some "one") None) "b")
  = fst (CacheService.get string 10 text_cache "b").
Proof.
  apply (proj1 (X19_cache_keys_independent string text_cache "a" "b"
                  (Some "one") None 0 10)).
  discriminate.
Defined.

(** X20.  getOrSet.  On a hit (get returns a value that is not null) it
    returns that value and never consults the factory, so a factory
    that would reject does no harm.  On a miss it returns what the
    factory resolves to and stores it, so that a get within the
    lifetime returns the same; if the factory rejects, getOrSet rejects
    with the same error and stores nothing. *)
Theorem X20_getOrSet
  (V : Type) (cache : CacheService.t V) (key : string)
  (factory : Result (option V)) (ttl : option Z) (now later : Z) :
  let looked := CacheService.get V now cache key in
  let result := CacheService.getOrSet V now later cache key factory ttl in
  (forall v, fst looked = Some v -> result = (Ok (Some v), snd looked))
  /\ (fst looked = None ->
      forall e, factory = Throw e -> result = (Throw e, snd looked))
  /\ (fst looked = None ->
      forall value, factory = Ok value ->
        fst result = Ok value
        /\ ((0 <= later)%Z -> (0 < CacheService.lifetime V cache ttl)%Z ->
            forall t, (t <= later + CacheService.lifetime V cache ttl * 1000)%Z ->
                      fst (CacheService.get V t (snd result) key) = value)).
Proof.
  intros looked result. subst result. unfold CacheService.getOrSet.
  fold looked. destruct looked as [[cached|] cache'] eqn:Hlooked; cbn [fst snd].
  - split; [|split]; [|discriminate|discriminate].
    intros v H. injection H as <-. reflexivity.
  - split; [discriminate|]. split.
    + intros _ e ->. reflexivity.
    + intros _ value ->. cbn [fst snd]. split; [reflexivity|].
      intros Hlater Hlife t Ht.
      assert (Hcache' : CacheService.prefix V cache' = CacheService.prefix V cache
                        /\ CacheService.defaultTTL V cache'
                           = CacheService.defaultTTL V cache).
      { unfold looked, CacheService.get in Hlooked. injection Hlooked as _ <-.
        split; reflexivity. }
      destruct Hcache' as [Hp Hd].
      assert (Hl : CacheService.lifetime V cache' ttl
                   = CacheService.lifetime V cache ttl).
      { unfold CacheService.lifetime. rewrite Hd. reflexivity. }
      pose proof (get_after_set V cache' key value ttl later t Hlater) as Hget.
      rewrite Hl in Hget. specialize (Hget Hlife). cbv zeta in Hget.
      rewrite Hget.
      destruct (_ <? _)%Z eqn:Hlt; [apply Z.ltb_lt in Hlt; lia|].
      reflexivity.
Qed.

Lemma X20_witness :
  fst (CacheService.getOrSet string 5 6
         (CacheService.set string 0 text_cache "k" (Some "cached") None)
         "k" (Throw (OtherError "backend down")) None)
  = Ok (Some "cached")
  /\ CacheService.getOrSet string 5 6 text_cache "k"
       (Throw (OtherError "backend down")) None
     = (Throw (OtherError "backend down"), text_cache)
  /\ fst (CacheService.get string 3600006
            (snd (CacheService.getOrSet string 5 6 text_cache "k"
                    (Ok (Some "fresh")) None)) "k")
     = Some "fresh".
Proof.
  split; [|split].
  - rewrite (proj1 (X20_getOrSet string
                      (CacheService.set string 0 text_cache "k" (Some "cached") None)
                      "k" (Throw (OtherError "backend down")) None 5 6)
               "cached" eq_refl).
    reflexivity.
  - apply (proj1 (proj2 (X20_getOrSet string text_cache "k"
                           (Throw (OtherError "backend down")) None 5 6))
             eq_refl (OtherError "backend down") eq_refl).
  - apply (proj2 (proj2 (proj2 (X20_getOrSet string text_cache "k"
                                  (Ok (Some "fresh")) None 5 6))
                    eq_refl (Some "fresh") eq_refl));
      [discriminate | reflexivity | discriminate].
Defined.

(** ** The chat middleware *)

(** X21.  ChatMiddleware.processMessage over the table of the sources:
    when the categorizer resolves, the message is the sentence "I don't
    have specific information about <intent> ..." for the intent of the
    text, with the three follow-ups of term life insurance and the
    category found; when the categorizer rejects, the message is the
    fixed apology with its three generic suggestions and no category. *)
Theorem X21_middleware_message
  (categorizeQuestion : string -> Result QuestionCategory) (text : string) :
  (forall c, categorizeQuestion text = Ok c ->
     ChatMiddleware.processMessage categorizeQuestion KnowledgeBase.new text
     = {| ChatMiddleware.pm_message :=
            "I don't have specific information about "
            ++ String dquote (ResponseGenerator.analyzeIntent text)
            ++ String dquote " in my knowledge base. Would you like to know about term life insurance, whole life insurance, or another insurance topic?";
          ChatMiddleware.pm_suggestions :=
            Some ["What is whole life insurance?"; "What is premium?";
                  "What is death benefit?"];
          ChatMiddleware.pm_category := Some c |})
  /\ (forall e, categorizeQuestion text = Throw e ->
        ChatMiddleware.processMessage categorizeQuestion KnowledgeBase.new text
        = {| ChatMiddleware.pm_message :=
               "I apologize, but I'm having trouble processing your request. Please try rephrasing your question or contact our support team for assistance.";
             ChatMiddleware.pm_suggestions :=
               Some [ "Can you explain your insurance needs?";
                      "What type of coverage are you looking for?";
                      "Would you like to speak with an insurance agent?" ];
             ChatMiddleware.pm_category := None |}).
Proof.
  split.
  - intros c Hc. unfold ChatMiddleware.processMessage. rewrite Hc. cbn [bind].
    rewrite generateResponse_fallback. reflexivity.
  - intros e He. unfold ChatMiddleware.processMessage. rewrite He. reflexivity.
Qed.

Lemma X21_witness :
  ChatMiddleware.pm_category
    (ChatMiddleware.processMessage
       (fun q => Ok (InsuranceService.categorizeQuestion q)) KnowledgeBase.new
       "Do I need a medical exam?") = Some health
  /\ ChatMiddleware.pm_category
       (ChatMiddleware.processMessage
          (fun _ => Throw (OtherError "categorizer down")) KnowledgeBase.new
          "Do I need a medical exam?") = None.
Proof.
  split.
  - rewrite (proj1 (X21_middleware_message
                      (fun q => Ok (InsuranceService.categorizeQuestion q))
                      "Do I need a medical exam?") health eq_refl).
    reflexivity.
  - rewrite (proj2 (X21_middleware_message
                      (fun _ => Throw (OtherError "categorizer down"))
                      "Do I need a medical exam?")
               (OtherError "categorizer down") eq_refl).
    reflexivity.
Defined.

(** X22.  The extractor of the middleware against the extractor of the
    service: both report the same coverage amount; a policy type that
    the middleware reports is also found by the service, and term is
    reported as term by both; but the middleware reads the text as it
    is, so it misses "Term Life" in capitals, which the service finds,
    and it knows no variable life, no age and no health status. *)
Theorem X22_middleware_extractor :
  (forall (text : string) (c : QuestionCategory),
      let mw := ChatMiddleware.extractUserContext text c in
      let sv := InsuranceService.extractContextFromQuery text c in
      coverageAmount mw = coverageAmount sv
      /\ (policyType mw = Some "term" -> policyType sv = Some "term")
      /\ (forall pt, policyType mw = Some pt -> exists pt', policyType sv = Some pt')
      /\ policyType mw <> Some "variable"
      /\ age mw = None /\ healthStatus mw = None)
  /\ policyType (ChatMiddleware.extractUserContext "Term Life, please" policy)
     = None
  /\ policyType (InsuranceService.extractContextFromQuery "Term Life, please"
                   policy) = Some "term".
Proof.
  split; [|split; vm_compute; reflexivity].
  intros text c mw sv. subst mw sv.
  cbn [ChatMiddleware.extractUserContext InsuranceService.extractContextFromQuery
       coverageAmount policyType age healthStatus].
  split; [reflexivity|].
  assert (Hlow : forall phrase,
             toLowerCase phrase = phrase ->
             includes text phrase = true ->
             includes (toLowerCase text) phrase = true).
  { intros phrase Hp H. rewrite <- Hp. apply includes_toLowerCase. exact H. }
  unfold InsuranceService.extractPolicyType.
  split; [|split; [|split; [|split; reflexivity]]].
  - destruct (includes text "term life") eqn:H1.
    + intros _. rewrite (Hlow "term life" eq_refl H1). reflexivity.
    + destruct (includes text "whole life"); [discriminate|].
      destruct (includes text "universal life"); discriminate.
  - intros pt.
    destruct (includes text "term life") eqn:H1.
    { intros _. rewrite (Hlow "term life" eq_refl H1). eexists. reflexivity. }
    destruct (includes text "whole life") eqn:H2.
    { intros _. rewrite (Hlow "whole life" eq_refl H2).
      destruct (includes (toLowerCase text) "term life"); eexists; reflexivity. }
    destruct (includes text "universal life") eqn:H3; [|discriminate].
    intros _. rewrite (Hlow "universal life" eq_refl H3).
    destruct (includes (toLowerCase text) "term life"); [eexists; reflexivity|].
    destruct (includes (toLowerCase text) "whole life"); eexists; reflexivity.
  - destruct (includes text "term life"); [discriminate|].
    destruct (includes text "whole life"); [discriminate|].
    destruct (includes text "universal life"); discriminate.
Qed.

Lemma X22_witness :
  policyType (InsuranceService.extractContextFromQuery
                "I want term life for 20 years" policy) = Some "term".
Proof.
  apply (proj1 (proj2 (proj1 X22_middleware_extractor
                         "I want term life for 20 years" policy))).
  vm_compute. reflexivity.
Defined.

(** ** The generator: all its answers *)

(** X23.  Over the table of the sources generateResponse has seven
    possible results.  If there are previous messages and one of the
    last two holds a back-reference (this, that, it, these, those), the
    result is the fixed error response; in every other case it is the
    fallback response for the intent of the query.  So the confidence
    is 1 or 0.5 and no message starts with "Regarding". *)
Theorem X23_generator_results (context : ResponseContext) :
  let back_reference :=
    match previousMessages context with
    | Some msgs =>
        negb (Nat.eqb (List.length msgs) 0)
        && existsb (fun msg =>
                      existsb (fun ref => includes (toLowerCase msg) ref)
                              ["this"; "that"; "it"; "these"; "those"])
                   (slice_last 2 msgs)
    | None => false
    end in
  ResponseGenerator.generateResponse KnowledgeBase.new context
  = Ok (if back_reference then errorResponse
        else fallback_response
               (ResponseGenerator.analyzeIntent (userQuery context))).
Proof.
  intros back_reference. subst back_reference.
  destruct context as [query prev ud]. cbn [previousMessages userQuery].
  destruct prev as [msgs|]; [|apply generateResponse_fallback].
  destruct (Nat.eqb (List.length msgs) 0) eqn:Hlen; cbn [negb andb].
  - rewrite <- (generateResponse_fallback query ud).
    unfold ResponseGenerator.generateResponse,
      ResponseGenerator.generateResponse_try, ResponseGenerator.applyContext,
      ResponseGenerator.applyHistory.
    cbn [previousMessages userQuery userData]. rewrite Hlen. reflexivity.
  - destruct (existsb _ (slice_last 2 msgs)) eqn:Href.
    + unfold ResponseGenerator.generateResponse.
      rewrite (back_reference_throws KnowledgeBase.new
                 (Build_ResponseContext query (Some msgs) ud) msgs eq_refl).
      * reflexivity.
      * intros ->. discriminate.
      * exact Href.
    + rewrite <- (generateResponse_fallback query ud).
      unfold ResponseGenerator.generateResponse,
        ResponseGenerator.generateResponse_try, ResponseGenerator.applyContext,
        ResponseGenerator.applyHistory.
      cbn [previousMessages userQuery userData]. rewrite Hlen.
      unfold ResponseGenerator.referencesTerms,
        ResponseGenerator.back_references.
      rewrite Href. reflexivity.
Qed.

(** X24.  The intent of the generator against the extractor and the
    categorizer of the service: the intent is policy_explanation
    exactly when the extractor finds a policy type, and a query whose
    intent is health_question is categorized as health. *)
Theorem X24_intent_extractor_categorizer (query : string) :
  (ResponseGenerator.analyzeIntent query = "policy_explanation"
   <-> InsuranceService.extractPolicyType query <> None)
  /\ (ResponseGenerator.analyzeIntent query = "health_question" ->
      InsuranceService.categorizeQuestion query = health).
Proof.
  unfold ResponseGenerator.analyzeIntent, InsuranceService.extractPolicyType,
    InsuranceService.categorizeQuestion, InsuranceService.includes_any,
    InsuranceService.health_keywords.
  cbn [existsb].
  set (lower := toLowerCase query).
  destruct (includes lower "term life"), (includes lower "whole life"),
    (includes lower "universal life"), (includes lower "variable life");
    cbn [orb];
    try (split; [split; [discriminate | reflexivity] | discriminate]).
  destruct (includes lower "premium" || includes lower "cash value"
            || includes lower "beneficiary" || includes lower "underwriting");
    [split; [split; [discriminate | intros H; now contradiction H] | discriminate]|].
  destruct (includes lower "how much" || includes lower "coverage"
            || includes lower "amount");
    [split; [split; [discriminate | intros H; now contradiction H] | discriminate]|].
  destruct (includes lower "health") eqn:H1; cbn [orb].
  { split; [split; [discriminate | intros H; now contradiction H] | reflexivity]. }
  destruct (includes lower "medical") eqn:H2; cbn [orb].
  { split; [split; [discriminate | intros H; now contradiction H] | reflexivity]. }
  destruct (includes lower "exam") eqn:H3; cbn [orb].
  { split; [split; [discriminate | intros H; now contradiction H] | reflexivity]. }
  destruct (includes lower "pre-existing") eqn:H4; cbn [orb].
  { split; [split; [discriminate | intros H; now contradiction H] | reflexivity]. }
  destruct (includes lower "claim" || includes lower "file"
            || includes lower "process");
    (split; [split; [discriminate | intros H; now contradiction H] | discriminate]).
Qed.

Lemma X24_witness :
  ResponseGenerator.analyzeIntent "Do I need a medical exam?" = "health_question"
  /\ InsuranceService.categorizeQuestion "Do I need a medical exam?" = health.
Proof.
  split; [reflexivity|].
  apply (proj2 (X24_intent_extractor_categorizer "Do I need a medical exam?")).
  reflexivity.
Defined.

(** X25.  In the hook over the service of the sources, every turn ends
    with exactly three suggestions on display, the ones attached to the
    assistant message just appended: the branch that clears the
    suggestions is never taken. *)
Theorem X25_three_suggestions_after_a_turn
  (ApiKeys ProviderSettings : Type) (config : InsuranceServiceConfig)
  (llmManager : LLMManager ApiKeys ProviderSettings)
  (apiKeys : option ApiKeys) (providerSettings : option ProviderSettings)
  (text : string) (st : State) :
  let st' :=
    sendMessage (service_of config llmManager apiKeys providerSettings) text st in
  List.length (suggestions st') = 3
  /\ option_map msg_suggestions (last_error (messages st'))
     = Some (Some (suggestions st')).
Proof.
  intros st'. subst st'.
  destruct (real_service_replies ApiKeys ProviderSettings config llmManager
              apiKeys providerSettings text (send_begin text st))
    as [r [_ Ha]].
  unfold sendMessage, send_end. rewrite Ha. cbn [suggestions messages send_begin].
  split; [apply follow_ups_three|].
  unfold last_error. rewrite <- app_assoc. cbn [app].
  induction (messages st) as [|m l IH]; [reflexivity|].
  cbn [app]. destruct (l ++ _)%list eqn:Hl; [destruct l; discriminate|].
  exact IH.
Qed.
